(** * Cartoon Headshot Creator: the UI controller and the generation client

    A shallow embedding of [src/App.tsx] and [src/services/geminiService.ts].

    - JavaScript strings are [string]s (sequences of 8-bit code units; code
      units above 255 are outside the model), [string | null] is
      [option string], and truthiness of such a value is [Js.truthy].
    - A React state cell is a field of [AppState]; the setters are the
      [set...] functions; the synchronous code of a handler between two
      suspension points is one state transformer: React applies the
      updates of one task together, and a handler reads the cells of the
      last render.
    - The browser and the SDK are the environment: the file picker, the
      [FileReader] and [ai.models.generateContent] appear as events and as
      the [Sdk] record. *)

From Stdlib Require Import String Ascii List Bool Arith Lia.
Import ListNotations.
Local Open Scope list_scope.
Local Open Scope string_scope.

(* ================================================================== *)
(** ** JavaScript values and string operations *)

Module Js.

(** The character [U+0022], which the template literal of the prompt
    contains twice. *)
Definition dquote : string := String (ascii_of_nat 34) EmptyString.

(** Truthiness of a [string | null]: [null] and the empty string are
    falsy. *)
Definition truthy (v : option string) : bool :=
  match v with
  | None => false
  | Some s => negb (s =? EmptyString)%string
  end.

(** [s.startsWith(lit)]. *)
Definition startsWith (s lit : string) : bool := String.prefix lit s.

(** [\w] without the [i] and [u] flags: [[A-Za-z0-9_]]. *)
Definition is_word (c : ascii) : bool :=
  let n := nat_of_ascii c in
  ((65 <=? n)%nat && (n <=? 90)%nat) || ((97 <=? n)%nat && (n <=? 122)%nat)
  || ((48 <=? n)%nat && (n <=? 57)%nat) || (n =? 95)%nat.

(** The line terminators [.] does not match: LF and CR (U+2028 and U+2029
    are not 8-bit code units). *)
Definition is_line_terminator (c : ascii) : bool :=
  let n := nat_of_ascii c in (n =? 10)%nat || (n =? 13)%nat.

(** What a [throw] can carry, as far as the two catch blocks look at it:
    an instance of [Error] with its [message]; any other value that is not
    [null] or [undefined], with the string its [message] property holds if
    it has one; [null] or [undefined]. *)
Inductive Thrown : Type :=
| ThrownError (message : string)
| ThrownOther (message : option string)
| ThrownNullish.

(** How an awaited promise settles. *)
Inductive Settled (A : Type) : Type :=
| Fulfilled (v : A)
| RejectedWith (e : Thrown).
Arguments Fulfilled {A} v.
Arguments RejectedWith {A} e.

End Js.

(* ================================================================== *)
(** ** The one regular expression of the program *)

Module Regex.

(** Matching a literal at the head of the input; the rest on success. *)
Fixpoint literal (lit s : string) : option string :=
  match lit with
  | EmptyString => Some s
  | String a lit' =>
      match s with
      | EmptyString => None
      | String b s' => if (a =? b)%char then literal lit' s' else None
      end
  end.

(** The longest run of word characters at the head of the input, and the
    rest. *)
Fixpoint word_run (s : string) : string * string :=
  match s with
  | EmptyString => (EmptyString, EmptyString)
  | String c s' =>
      if Js.is_word c
      then let (w, r) := word_run s' in (String c w, r)
      else (EmptyString, s)
  end.

(** [.*$]: the whole rest of the input, which then holds no line
    terminator. *)
Fixpoint dot_star_end (s : string) : bool :=
  match s with
  | EmptyString => true
  | String c s' => negb (Js.is_line_terminator c) && dot_star_end s'
  end.

(** Every character of the string is a word character. *)
Fixpoint all_word (s : string) : bool :=
  match s with
  | EmptyString => true
  | String c s' => Js.is_word c && all_word s'
  end.

End Regex.

(* ================================================================== *)
(** ** [types.ts] and the part of the SDK's types the client touches *)

Record ImageData : Type := { mimeType : string; base64 : string }.

Module Genai.

Record Blob : Type := { data : string; mimeType : string }.

Record Part : Type := { inlineData : option Blob; text : option string }.

Record Content : Type := { parts : list Part }.

Record Candidate : Type := { content : Content }.

(** Of the responses that lack a field the client reads, the one without
    a first candidate is modelled. *)
Record GenerateContentResponse : Type := { candidates : list Candidate }.

Inductive Modality : Type :=
| MODALITY_UNSPECIFIED | TEXT | IMAGE | AUDIO.

Record GenerateContentParameters : Type :=
  { model : string;
    contents : Content;
    responseModalities : list Modality }.

(** The environment of one call of the client: whether
    [new GoogleGenAI(...)] throws, and how [ai.models.generateContent]
    settles for a given request. *)
Record Sdk : Type :=
  { construct : option Js.Thrown;
    generateContent :
      GenerateContentParameters -> Js.Settled GenerateContentResponse }.

(** The message of the [TypeError] raised by [response.candidates[0].content]
    when the response has no candidate (the wording of V8). *)
Definition type_error_message : string :=
  "Cannot read properties of undefined (reading 'content')".

End Genai.

(* ================================================================== *)
(** ** [src/App.tsx]: [dataURLToImageData] *)

(** [dataUrl.match(re)], where [re] is anchored at both ends and reads: the
    literal [data:], then group 1 = the literal [image/] and one or more
    word characters, then the literal [;base64,], then group 2 = any run of
    characters other than line terminators.  The greedy run of word
    characters is the longest one: the literal that follows starts with
    [;], which is no word character, so no shorter run can match. *)
Definition dataURLToImageData (dataUrl : string) : option ImageData :=
  match Regex.literal "data:image/" dataUrl with
  | None => None
  | Some r1 =>
      let (w, r2) := Regex.word_run r1 in
      if (w =? EmptyString)%string then None
      else
        match Regex.literal ";base64," r2 with
        | None => None
        | Some payload =>
            if Regex.dot_star_end payload
            then Some {| mimeType := "image/" ++ w; base64 := payload |}
            else None
        end
  end.

(** The pattern in words: [data:image/<word-characters>;base64,<payload>],
    with at least one word character and a payload on a single line. *)
Definition matches_data_url_pattern (dataUrl : string) : Prop :=
  exists w payload,
    dataUrl = "data:image/" ++ w ++ ";base64," ++ payload
    /\ w <> EmptyString
    /\ Regex.all_word w = true
    /\ Regex.dot_star_end payload = true.

(** [needle] occurs in [hay] as it is. *)
Definition occurs_in (needle hay : string) : Prop :=
  exists before after, hay = before ++ needle ++ after.

(** The same as a test: [needle] starts [hay] or occurs further on. *)
Fixpoint occursb (needle hay : string) : bool :=
  String.prefix needle hay
  || match hay with
     | EmptyString => false
     | String _ rest => occursb needle rest
     end.

(** Sequencing of state updates in the order the source writes them. *)
Local Notation "s |> f" := (f s) (at level 45, left associativity, only parsing).

(* ================================================================== *)
(** ** [src/services/geminiService.ts] *)

Module GeminiService.

(** The two literal pieces of the template literal around [${prompt}]. *)
Definition promptHead : string :=
  "Generate a cartoon-style headshot based on the provided image. The style should be vibrant, friendly, and suitable for a profile picture. Apply the following user instructions: "
  ++ Js.dquote.

(** The last sentence of the template: the directive for the case of no
    instructions. *)
Definition fallbackDirective : string :=
  "If no specific instructions are provided, create a standard, high-quality cartoon version.".

Definition promptTail : string :=
  Js.dquote ++ ". " ++ fallbackDirective.

Definition fullPrompt (prompt : string) : string :=
  promptHead ++ prompt ++ promptTail.

Definition imagePart (baseImage : ImageData) : Genai.Part :=
  {| Genai.inlineData :=
       Some {| Genai.data := base64 baseImage;
               Genai.mimeType := mimeType baseImage |};
     Genai.text := None |}.

Definition textPart (prompt : string) : Genai.Part :=
  {| Genai.inlineData := None; Genai.text := Some (fullPrompt prompt) |}.

(** The argument of [ai.models.generateContent]. *)
Definition request (baseImage : ImageData) (prompt : string)
  : Genai.GenerateContentParameters :=
  {| Genai.model := "gemini-2.5-flash-image";
     Genai.contents :=
       {| Genai.parts := [imagePart baseImage; textPart prompt] |};
     Genai.responseModalities := [Genai.IMAGE] |}.

(** The [for ... of] loop: the data of the first part that has
    [inlineData]. *)
Fixpoint firstInlineData (ps : list Genai.Part) : option string :=
  match ps with
  | [] => None
  | part :: rest =>
      match Genai.inlineData part with
      | Some blob => Some (Genai.data blob)
      | None => firstInlineData rest
      end
  end.

Definition noImageMessage : string :=
  "No image data found in the API response.".

(** The body of the [try] once the call has settled: a returned string
    or the value thrown inside the block. *)
Definition tryBlock (settled : Js.Settled Genai.GenerateContentResponse)
  : string + Js.Thrown :=
  match settled with
  | Js.RejectedWith e => inr e
  | Js.Fulfilled response =>
      match Genai.candidates response with
      | [] => inr (Js.ThrownError Genai.type_error_message)
      | candidate :: _ =>
          match firstInlineData (Genai.parts (Genai.content candidate)) with
          | Some d => inl d
          | None => inr (Js.ThrownError noImageMessage)
          end
      end
  end.

(** The [catch] block: what it throws in turn. *)
Definition catchBlock (error : Js.Thrown) : Js.Thrown :=
  match error with
  | Js.ThrownError message =>
      Js.ThrownError ("Failed to generate image: " ++ message)
  | _ =>
      Js.ThrownError "An unknown error occurred while generating the image."
  end.

(** [generateCartoonImage]: the requests it sent and how its promise
    settles.  The construction of the client stands before the [try]. *)
Definition generateCartoonImage
    (sdk : Genai.Sdk) (baseImage : ImageData) (prompt : string)
  : list Genai.GenerateContentParameters * Js.Settled string :=
  match Genai.construct sdk with
  | Some e => ([], Js.RejectedWith e)
  | None =>
      let req := request baseImage prompt in
      ([req],
       match tryBlock (Genai.generateContent sdk req) with
       | inl generatedBase64 => Js.Fulfilled generatedBase64
       | inr error => Js.RejectedWith (catchBlock error)
       end)
  end.

End GeminiService.

(* ================================================================== *)
(** ** [src/App.tsx]: the component's state and handlers *)

Module App.

Record AppState : Type :=
  { prompt : string;
    originalImage : option string;
    generatedImage : option string;
    isLoading : bool;
    error : option string }.

(** The five [useState] initial values. *)
Definition initial : AppState :=
  {| prompt := EmptyString;
     originalImage := None;
     generatedImage := None;
     isLoading := false;
     error := None |}.

Definition setPrompt (v : string) (s : AppState) : AppState :=
  {| prompt := v; originalImage := originalImage s;
     generatedImage := generatedImage s; isLoading := isLoading s;
     error := error s |}.

Definition setOriginalImage (v : option string) (s : AppState) : AppState :=
  {| prompt := prompt s; originalImage := v;
     generatedImage := generatedImage s; isLoading := isLoading s;
     error := error s |}.

Definition setGeneratedImage (v : option string) (s : AppState) : AppState :=
  {| prompt := prompt s; originalImage := originalImage s;
     generatedImage := v; isLoading := isLoading s;
     error := error s |}.

Definition setIsLoading (v : bool) (s : AppState) : AppState :=
  {| prompt := prompt s; originalImage := originalImage s;
     generatedImage := generatedImage s; isLoading := v;
     error := error s |}.

Definition setError (v : option string) (s : AppState) : AppState :=
  {| prompt := prompt s; originalImage := originalImage s;
     generatedImage := generatedImage s; isLoading := isLoading s;
     error := v |}.

(** A file of the picker: its declared media type.  Its contents reach
    the program only through the [FileReader]. *)
Record File : Type := { type : string }.

(** How a [FileReader] finishes: with the base64 of the contents, or with
    an error. *)
Inductive ReaderResult : Type :=
| ReadOk (payload : string)
| ReadFailed.

(** A model of the browser, not of code of the repository: [reader.result]
    after a successful [readAsDataURL], for a file whose declared type the
    reader keeps as the media type of the data URL (as it does for
    "image/png" or "image/svg+xml").  For a declared type that is no media
    type, such as "image/", a reader may write another media type
    ("application/octet-stream"); no handler looks at the string when it
    stores it. *)
Definition readAsDataURL (file : File) (payload : string) : string :=
  "data:" ++ type file ++ ";base64," ++ payload.

(** [handleFileChange]: the new state and the file whose read was
    started, if any. *)
Definition handleFileChange (file : option File) (s : AppState)
  : AppState * option File :=
  match file with
  | None => (s, None)
  | Some f =>
      if negb (Js.startsWith (type f) "image/")
      then (s |> setError (Some "Please upload a valid image file (PNG, JPG, etc.)."),
            None)
      else (s, Some f)
  end.

(** [reader.onloadend], with the value of [reader.result]. *)
Definition onloadend (result : option string) (s : AppState) : AppState :=
  s |> setOriginalImage result |> setGeneratedImage None |> setError None.

(** [reader.onerror]. *)
Definition onerror (s : AppState) : AppState :=
  s |> setError (Some "Failed to read the image file.").

(** The events a finished reader fires: [loadend] after a successful
    read, [error] and then [loadend] (with a null result) after a failed
    one. *)
Definition readerSettles (file : File) (r : ReaderResult) (s : AppState)
  : AppState :=
  match r with
  | ReadOk payload => s |> onloadend (Some (readAsDataURL file payload))
  | ReadFailed => s |> onerror |> onloadend None
  end.

(** [handleGenerate] up to its [await]: the new state and the arguments
    of the call of [generateCartoonImage], if it is reached. *)
Definition handleGenerate (s : AppState)
  : AppState * option (ImageData * string) :=
  match originalImage s with
  | Some dataUrl =>
      if negb (Js.truthy (Some dataUrl))
      then (s |> setError (Some "Please upload an image first."), None)
      else
        match dataURLToImageData dataUrl with
        | None => (s |> setError (Some "Invalid image data format."), None)
        | Some imageData =>
            (s |> setIsLoading true |> setError None
               |> setGeneratedImage None,
             Some (imageData, prompt s))
        end
  | None => (s |> setError (Some "Please upload an image first."), None)
  end.

(** [e.message || 'An unexpected error occurred.']; [None] when reading
    [e.message] itself throws. *)
Definition catchMessage (e : Js.Thrown) : option string :=
  let fallback := "An unexpected error occurred." in
  match e with
  | Js.ThrownError m => Some (if (m =? EmptyString)%string then fallback else m)
  | Js.ThrownOther (Some m) =>
      Some (if (m =? EmptyString)%string then fallback else m)
  | Js.ThrownOther None => Some fallback
  | Js.ThrownNullish => None
  end.

(** [handleGenerate] from its [await] on: the [try] continues or the
    [catch] runs, then the [finally]. *)
Definition handleGenerateSettled (r : Js.Settled string) (s : AppState)
  : AppState :=
  (match r with
   | Js.Fulfilled generatedBase64 =>
       s |> setGeneratedImage (Some ("data:image/png;base64," ++ generatedBase64))
   | Js.RejectedWith e =>
       match catchMessage e with
       | Some m => s |> setError (Some m)
       | None => s
       end
   end) |> setIsLoading false.

(** [downloadImage]: the [href] and the [download] name of the link it
    clicks, if it clicks one. *)
Definition downloadImage (s : AppState) : option (string * string) :=
  match generatedImage s with
  | Some g => if Js.truthy (Some g) then Some (g, "cartoon-headshot.png") else None
  | None => None
  end.

(** *** What the component renders *)

Inductive ResultColumn : Type :=
| LoadingSpinner
| GeneratedImg (src : string)
| Placeholder.

Definition resultColumn (s : AppState) : ResultColumn :=
  if isLoading s then LoadingSpinner
  else
    match generatedImage s with
    | Some g => if Js.truthy (Some g) then GeneratedImg g else Placeholder
    | None => Placeholder
    end.

(** The alert above the columns: [error && ...]. *)
Definition errorBanner (s : AppState) : option string :=
  if Js.truthy (error s) then error s else None.

(** [disabled] of the generate button and of the prompt box. *)
Definition generateDisabled (s : AppState) : bool :=
  isLoading s || negb (Js.truthy (originalImage s)).

Definition promptDisabled (s : AppState) : bool := isLoading s.

(** The display modes of the state: the loading flag, a set error
    message, a present generated image, or none of the three. *)
Inductive DisplayMode : Type :=
| ModeLoading | ModeError | ModeResult | ModeNone.

Definition activeModes (s : AppState) : list DisplayMode :=
  let on (b : bool) (m : DisplayMode) := if b then [m] else [] in
  match (on (isLoading s) ModeLoading
         ++ on (Js.truthy (error s)) ModeError
         ++ on (Js.truthy (generatedImage s)) ModeResult)%list with
  | [] => [ModeNone]
  | ms => ms
  end.

(** *** The component in its environment *)

(** The state cells, the readers that have not finished, and the calls of
    [generateCartoonImage] that have not settled. *)
Record System : Type :=
  { ui : AppState;
    readers : list File;
    calls : list (ImageData * string) }.

Definition start : System :=
  {| ui := initial; readers := []; calls := [] |}.

Inductive Event : Type :=
| FileChange (file : option File)
| ReaderSettles (k : nat) (r : ReaderResult)
| PromptChange (value : string)
| GenerateClick
| GenerationSettles (k : nat) (sdk : Genai.Sdk)
| DownloadClick.

Definition remove_nth {A : Type} (k : nat) (l : list A) : list A :=
  (firstn k l ++ skipn (S k) l)%list.

(** One event; [None] when the event cannot happen in this state (a
    disabled control, a button that is not rendered, no such reader or
    call).  [downloadImage] writes no state cell. *)
Definition step (c : System) (e : Event) : option System :=
  match e with
  | FileChange file =>
      let (s', started) := handleFileChange file (ui c) in
      Some {| ui := s';
              readers :=
                (readers c ++ match started with
                              | Some f => [f]
                              | None => []
                              end)%list;
              calls := calls c |}
  | ReaderSettles k r =>
      match nth_error (readers c) k with
      | Some f =>
          Some {| ui := readerSettles f r (ui c);
                  readers := remove_nth k (readers c);
                  calls := calls c |}
      | None => None
      end
  | PromptChange value =>
      if promptDisabled (ui c) then None
      else Some {| ui := setPrompt value (ui c);
                   readers := readers c;
                   calls := calls c |}
  | GenerateClick =>
      if generateDisabled (ui c) then None
      else
        let (s', call) := handleGenerate (ui c) in
        Some {| ui := s';
                readers := readers c;
                calls :=
                  (calls c ++ match call with
                              | Some a => [a]
                              | None => []
                              end)%list |}
  | GenerationSettles k sdk =>
      match nth_error (calls c) k with
      | Some (imageData, p) =>
          let settled :=
            snd (GeminiService.generateCartoonImage sdk imageData p) in
          Some {| ui := handleGenerateSettled settled (ui c);
                  readers := readers c;
                  calls := remove_nth k (calls c) |}
      | None => None
      end
  | DownloadClick =>
      match resultColumn (ui c) with
      | GeneratedImg _ => Some c
      | _ => None
      end
  end.

(** A sequence of events from a state. *)
Fixpoint run (c : System) (es : list Event) : option System :=
  match es with
  | [] => Some c
  | e :: es' =>
      match step c e with
      | Some c' => run c' es'
      | None => None
      end
  end.

(** The states the component can be in. *)
Inductive reachable : System -> Prop :=
| reachable_start : reachable start
| reachable_step c e c' :
    reachable c -> step c e = Some c' -> reachable c'.

End App.

(* ================================================================== *)
(** ** Concrete files, services and sessions *)

Module Scenario.

Import App.

Definition pngFile : File := {| type := "image/png" |}.
Definition svgFile : File := {| type := "image/svg+xml" |}.
Definition textFile : File := {| type := "text/plain" |}.

(** The base64 of the first bytes of a PNG file. *)
Definition pngPayload : string := "iVBORw0KGgo=".

Definition inlinePart (d : string) : Genai.Part :=
  {| Genai.inlineData :=
       Some {| Genai.data := d; Genai.mimeType := "image/jpeg" |};
     Genai.text := None |}.

Definition textOnlyPart (t : string) : Genai.Part :=
  {| Genai.inlineData := None; Genai.text := Some t |}.

(** A service that answers every request with one candidate made of the
    given parts. *)
Definition serviceReturning (ps : list Genai.Part) : Genai.Sdk :=
  {| Genai.construct := None;
     Genai.generateContent := fun _ =>
       Js.Fulfilled
         {| Genai.candidates :=
              [{| Genai.content := {| Genai.parts := ps |} |}] |} |}.

(** A service whose call throws the given value. *)
Definition serviceThrowing (e : Js.Thrown) : Genai.Sdk :=
  {| Genai.construct := None;
     Genai.generateContent := fun _ => Js.RejectedWith e |}.

(** The state after a sequence of events from the start ([start] itself
    if some event of the sequence cannot happen). *)
Definition exec (es : list Event) : System :=
  match run start es with
  | Some c => c
  | None => start
  end.

Definition uploadPng : list Event :=
  [FileChange (Some pngFile); ReaderSettles 0 (ReadOk pngPayload)].

Definition uploadSvg : list Event :=
  [FileChange (Some svgFile); ReaderSettles 0 (ReadOk "PHN2Zy8+")].

Definition startGeneration : list Event :=
  (uploadPng ++ [PromptChange "pixar style"; GenerateClick])%list.

Definition generationSucceeds : list Event :=
  (startGeneration
   ++ [GenerationSettles 0 (serviceReturning [inlinePart "QUJD"])])%list.

Definition generationRateLimited : list Event :=
  (startGeneration
   ++ [GenerationSettles 0
         (serviceThrowing (Js.ThrownError "rate limited"))])%list.

Definition generationWithoutImage : list Event :=
  (startGeneration
   ++ [GenerationSettles 0
         (serviceReturning [textOnlyPart "no picture"; textOnlyPart "sorry"])])%list.

(** A file that is no image is picked while a result is shown, and while
    a request is pending. *)
Definition invalidFileAfterResult : list Event :=
  (generationSucceeds ++ [FileChange (Some textFile)])%list.

Definition invalidFileWhileLoading : list Event :=
  (startGeneration ++ [FileChange (Some textFile)])%list.

End Scenario.

(* ================================================================== *)
(** ** The shape of what the handlers store *)

Module Shape.

Import App.

(** The file's declared type passes the check of [handleFileChange]. *)
Definition declaredImage (f : File) : Prop :=
  Js.startsWith (type f) "image/" = true.

(** Every pending reader reads a file that passed the check; the source
    image is what the model of the reader gives for such a file; the
    generated image is a [data:image/png] URL; a pending call carries the
    prompt the prompt box shows. *)
Record wellShaped (c : System) : Prop :=
  { readers_declared : Forall declaredImage (readers c);
    original_shape :
      forall u, originalImage (ui c) = Some u ->
                exists f payload, declaredImage f /\ u = readAsDataURL f payload;
    generated_shape :
      forall g, generatedImage (ui c) = Some g ->
                exists d, g = "data:image/png;base64," ++ d;
    calls_prompt : Forall (fun a => snd a = prompt (ui c)) (calls c) }.

End Shape.

(* ================================================================== *)
(** * Properties *)

Import App.

(** ** The regular expression *)

Section RegexFacts.

Lemma literal_Some (lit s r : string) :
  Regex.literal lit s = Some r <-> s = lit ++ r.
Proof.
  revert s; induction lit as [|a lit IH]; intros s; simpl.
  - split; intros H; [injection H as ->; reflexivity | now subst].
  - destruct s as [|b s]; [split; discriminate|].
    destruct (Ascii.eqb_spec a b) as [->|Hab].
    + rewrite IH. split; intros H; [now subst | now injection H].
    + split; [discriminate | intros H; injection H as Hb _; congruence].
Qed.

Lemma literal_app (lit r : string) : Regex.literal lit (lit ++ r) = Some r.
Proof. now apply literal_Some. Qed.

(** The run is made of word characters, and what follows does not start
    with one. *)
Lemma word_run_split (s : string) :
  s = fst (Regex.word_run s) ++ snd (Regex.word_run s)
  /\ Regex.all_word (fst (Regex.word_run s)) = true
  /\ match snd (Regex.word_run s) with
     | EmptyString => True
     | String c _ => Js.is_word c = false
     end.
Proof.
  induction s as [|c s IH]; simpl; [auto|].
  destruct (Js.is_word c) eqn:Hc.
  - destruct (Regex.word_run s) as [w r]; simpl in *.
    destruct IH as (-> & Hw & Hr). rewrite Hc, Hw. auto.
  - simpl. rewrite Hc. auto.
Qed.

Lemma word_run_app (w r : string) :
  Regex.all_word w = true ->
  match r with EmptyString => True | String c _ => Js.is_word c = false end ->
  Regex.word_run (w ++ r) = (w, r).
Proof.
  intros Hw Hr; induction w as [|c w IH]; simpl in *.
  - destruct r as [|c r]; [reflexivity|]. simpl. now rewrite Hr.
  - apply andb_true_iff in Hw as [Hc Hw]. now rewrite Hc, IH.
Qed.

(** The function finds a match exactly when the string has the shape of
    the pattern, and then returns the two groups. *)
Lemma dataURLToImageData_Some (u : string) (img : ImageData) :
  dataURLToImageData u = Some img <->
  exists w payload,
    u = "data:image/" ++ w ++ ";base64," ++ payload
    /\ w <> EmptyString
    /\ Regex.all_word w = true
    /\ Regex.dot_star_end payload = true
    /\ img = {| mimeType := "image/" ++ w; base64 := payload |}.
Proof.
  unfold dataURLToImageData. split.
  - destruct (Regex.literal "data:image/" u) as [r1|] eqn:H1; [|discriminate].
    apply literal_Some in H1.
    pose proof (word_run_split r1) as (Hs & Hw & _).
    destruct (Regex.word_run r1) as [w r2]; cbn [fst snd] in *.
    destruct (String.eqb_spec w EmptyString) as [|Hne]; [discriminate|].
    destruct (Regex.literal ";base64," r2) as [payload|] eqn:H2; [|discriminate].
    apply literal_Some in H2.
    destruct (Regex.dot_star_end payload) eqn:Hd; [|discriminate].
    intros H; injection H as <-.
    exists w, payload. subst. repeat split; auto.
  - intros (w & payload & -> & Hne & Hw & Hd & ->).
    rewrite literal_app.
    rewrite (word_run_app w (";base64," ++ payload) Hw eq_refl).
    destruct (String.eqb_spec w EmptyString) as [|_]; [contradiction|].
    now rewrite literal_app, Hd.
Qed.

Lemma dataURLToImageData_None (u : string) :
  dataURLToImageData u = None <-> ~ matches_data_url_pattern u.
Proof.
  unfold matches_data_url_pattern. split.
  - intros HN (w & payload & Hu & Hne & Hw & Hd).
    assert (dataURLToImageData u
            = Some {| mimeType := "image/" ++ w; base64 := payload |}) as HS.
    { apply dataURLToImageData_Some. exists w, payload. auto. }
    congruence.
  - intros Hno. destruct (dataURLToImageData u) as [img|] eqn:HS; [|reflexivity].
    exfalso. apply Hno. apply dataURLToImageData_Some in HS.
    destruct HS as (w & payload & ? & ? & ? & ? & _). exists w, payload. auto.
Qed.

End RegexFacts.

(** ** The continuation of [handleGenerate] *)

(** The cells after the continuation of [handleGenerate]. *)
Lemma settled_isLoading r s : isLoading (handleGenerateSettled r s) = false.
Proof. reflexivity. Qed.

Lemma settled_originalImage r s :
  originalImage (handleGenerateSettled r s) = originalImage s.
Proof. destruct r as [b|e]; [reflexivity|]. simpl. now destruct (catchMessage e). Qed.

Lemma settled_prompt r s : prompt (handleGenerateSettled r s) = prompt s.
Proof. destruct r as [b|e]; [reflexivity|]. simpl. now destruct (catchMessage e). Qed.

Lemma settled_generatedImage r s :
  generatedImage (handleGenerateSettled r s)
  = match r with
    | Js.Fulfilled b => Some ("data:image/png;base64," ++ b)
    | Js.RejectedWith _ => generatedImage s
    end.
Proof. destruct r as [b|e]; [reflexivity|]. simpl. now destruct (catchMessage e). Qed.

Lemma settled_error r s :
  error (handleGenerateSettled r s)
  = match r with
    | Js.Fulfilled _ => error s
    | Js.RejectedWith e =>
        match catchMessage e with Some m => Some m | None => error s end
    end.
Proof. destruct r as [b|e]; [reflexivity|]. simpl. now destruct (catchMessage e). Qed.

Create Rewrite HintDb settled.
#[global] Hint Rewrite settled_isLoading settled_originalImage settled_prompt
  settled_generatedImage settled_error : settled.

(** ** Reachable states *)

Section Reachability.

Lemma reachable_run (c c' : System) (es : list Event) :
  reachable c -> run c es = Some c' -> reachable c'.
Proof.
  revert c; induction es as [|e es IH]; intros c Hc; simpl.
  - now intros [= <-].
  - destruct (step c e) as [c1|] eqn:He; [|discriminate].
    apply IH. now apply reachable_step with c e.
Qed.

(** A property of the start state that every event preserves holds in
    every reachable state. *)
Lemma reachable_invariant (P : System -> Prop) :
  P start ->
  (forall c e c', P c -> step c e = Some c' -> P c') ->
  forall c, reachable c -> P c.
Proof.
  intros H0 HS c Hc; induction Hc as [|c e c' _ IH He]; [assumption|].
  now apply HS with c e.
Qed.

(** What every reachable state satisfies: a generated image is never
    stored while the loading flag is set; the flag is set exactly while
    one call is pending, and no second call is; no state cell holds the
    empty string. *)
Record consistent (c : System) : Prop :=
  { loading_no_result :
      isLoading (ui c) = true -> generatedImage (ui c) = None;
    loading_one_call :
      if isLoading (ui c) then exists a, calls c = [a] else calls c = [];
    original_truthy : originalImage (ui c) <> Some EmptyString;
    generated_truthy : generatedImage (ui c) <> Some EmptyString;
    error_truthy : error (ui c) <> Some EmptyString }.

Lemma catchMessage_nonempty (e : Js.Thrown) :
  catchMessage e <> Some EmptyString.
Proof.
  destruct e as [m|[m|]|]; simpl; try discriminate;
    destruct (String.eqb_spec m EmptyString); congruence.
Qed.

Lemma consistent_start : consistent start.
Proof. constructor; simpl; auto; discriminate. Qed.

Lemma consistent_step (c : System) (e : Event) (c' : System) :
  consistent c -> step c e = Some c' -> consistent c'.
Proof.
  intros [Hres Hcall Ho Hg He] Hstep.
  destruct e as [file|k r| v | |k sdk| ]; simpl in Hstep.
  - (* FileChange *)
    unfold handleFileChange in Hstep.
    destruct file as [f|]; [destruct (negb _)|];
      injection Hstep as <-; constructor; simpl; auto; discriminate.
  - (* ReaderSettles *)
    destruct (nth_error (readers c) k) as [f|]; [|discriminate].
    injection Hstep as <-.
    destruct r as [payload|]; constructor; simpl; auto; discriminate.
  - (* PromptChange *)
    destruct (promptDisabled (ui c)); [discriminate|].
    injection Hstep as <-. constructor; simpl; auto.
  - (* GenerateClick *)
    unfold generateDisabled in Hstep.
    destruct (isLoading (ui c)) eqn:HL; [discriminate|]. simpl in Hstep.
    destruct (negb (Js.truthy (originalImage (ui c)))) eqn:HT; [discriminate|].
    unfold handleGenerate in Hstep.
    destruct (originalImage (ui c)) as [u|] eqn:HO; [|discriminate].
    rewrite HT in Hstep.
    destruct (dataURLToImageData u) as [img|];
      injection Hstep as <-; constructor; simpl;
      rewrite ?HL, ?Hcall, ?HO; simpl; eauto; discriminate.
  - (* GenerationSettles *)
    destruct (nth_error (calls c) k) as [[img p]|] eqn:Hk; [|discriminate].
    injection Hstep as <-.
    destruct (isLoading (ui c)) eqn:HL.
    + destruct Hcall as [a Ha]. rewrite Ha in *.
      destruct k as [|k]; [|destruct k; discriminate].
      constructor; cbn [ui calls]; autorewrite with settled;
        try assumption; try discriminate; try reflexivity.
      * destruct (snd _) as [b|e]; [discriminate|assumption].
      * destruct (snd _) as [b|e]; [assumption|].
        pose proof (catchMessage_nonempty e).
        destruct (catchMessage e); congruence.
    + rewrite Hcall in Hk. destruct k; discriminate.
  - (* DownloadClick *)
    destruct (resultColumn (ui c)); try discriminate.
    now injection Hstep as <-.
Qed.

Lemma reachable_consistent (c : System) : reachable c -> consistent c.
Proof.
  apply reachable_invariant; [exact consistent_start|].
  intros c0 e c'; apply consistent_step.
Qed.

End Reachability.

(** ** Sessions *)

Section Sessions.

Lemma exec_reachable (es : list Event) : reachable (Scenario.exec es).
Proof.
  unfold Scenario.exec. destruct (run start es) as [c|] eqn:Hrun.
  - apply reachable_run with start es; [constructor | assumption].
  - constructor.
Qed.

(** The sessions of [Scenario] run to their end, and where they end. *)
Lemma invalidFileAfterResult_state :
  run start Scenario.invalidFileAfterResult
  = Some
      {| ui :=
           {| prompt := "pixar style";
              originalImage := Some "data:image/png;base64,iVBORw0KGgo=";
              generatedImage := Some "data:image/png;base64,QUJD";
              isLoading := false;
              error := Some "Please upload a valid image file (PNG, JPG, etc.)." |};
         readers := [];
         calls := [] |}.
Proof. reflexivity. Qed.

Lemma invalidFileWhileLoading_state :
  run start Scenario.invalidFileWhileLoading
  = Some
      {| ui :=
           {| prompt := "pixar style";
              originalImage := Some "data:image/png;base64,iVBORw0KGgo=";
              generatedImage := None;
              isLoading := true;
              error := Some "Please upload a valid image file (PNG, JPG, etc.)." |};
         readers := [];
         calls :=
           [({| mimeType := "image/png"; base64 := "iVBORw0KGgo=" |},
             "pixar style")] |}.
Proof. reflexivity. Qed.

Lemma generationSucceeds_state :
  option_map ui (run start Scenario.generationSucceeds)
  = Some {| prompt := "pixar style";
            originalImage := Some "data:image/png;base64,iVBORw0KGgo=";
            generatedImage := Some "data:image/png;base64,QUJD";
            isLoading := false;
            error := None |}.
Proof. reflexivity. Qed.

Lemma generationWithoutImage_state :
  option_map ui (run start Scenario.generationWithoutImage)
  = Some {| prompt := "pixar style";
            originalImage := Some "data:image/png;base64,iVBORw0KGgo=";
            generatedImage := None;
            isLoading := false;
            error :=
              Some "Failed to generate image: No image data found in the API response." |}.
Proof. reflexivity. Qed.

End Sessions.

(** ** The display modes *)

(** Claim C1, as stated, fails: after a generated image is shown, picking a
    file that is no image sets the error message and keeps the image, so two
    of the display modes are active in a reachable state. *)
Lemma display_modes_not_exclusive :
  ~ (forall c : System, reachable c -> exists m, activeModes (ui c) = [m]).
Proof.
  intros H.
  destruct (H (Scenario.exec Scenario.invalidFileAfterResult)
              (exec_reachable _)) as [m Hm].
  unfold Scenario.exec in Hm. rewrite invalidFileAfterResult_state in Hm.
  discriminate Hm.
Qed.

(** Claim C1, amended: in every reachable state the loading flag and a
    generated image never hold together; the error message is independent
    of both, so the active display modes are one of: none, loading, error,
    result, loading with error, error with result. *)
Theorem display_modes_reachable (c : System) (Hc : reachable c) :
  (isLoading (ui c) = true -> generatedImage (ui c) = None)
  /\ In (activeModes (ui c))
        [[ModeNone]; [ModeLoading]; [ModeError]; [ModeResult];
         [ModeLoading; ModeError]; [ModeError; ModeResult]].
Proof.
  destruct (reachable_consistent c Hc) as [Hres _ _ _ _].
  split; [exact Hres|].
  unfold activeModes.
  destruct (isLoading (ui c)).
  - rewrite (Hres eq_refl). destruct (Js.truthy (error (ui c))); simpl; auto 10.
  - destruct (Js.truthy (error (ui c))), (Js.truthy (generatedImage (ui c)));
      simpl; auto 10.
Qed.

Lemma display_modes_reachable_witness :
  (isLoading (ui (Scenario.exec Scenario.invalidFileAfterResult)) = true ->
   generatedImage (ui (Scenario.exec Scenario.invalidFileAfterResult)) = None)
  /\ In (activeModes (ui (Scenario.exec Scenario.invalidFileAfterResult)))
        [[ModeNone]; [ModeLoading]; [ModeError]; [ModeResult];
         [ModeLoading; ModeError]; [ModeError; ModeResult]].
Proof.
  apply (display_modes_reachable
           (Scenario.exec Scenario.invalidFileAfterResult)).
  apply exec_reachable.
Defined.

(** Claim C8, as stated, fails for the error message: the file input stays
    enabled while a request is pending, and picking a file that is no image
    then sets the error while the loading flag is true. *)
Lemma loading_with_error_reachable :
  ~ (forall c : System,
        reachable c -> isLoading (ui c) = true ->
        error (ui c) = None /\ generatedImage (ui c) = None).
Proof.
  intros H.
  pose proof (H (Scenario.exec Scenario.invalidFileWhileLoading)
                (exec_reachable _)) as Hc.
  unfold Scenario.exec in Hc. rewrite invalidFileWhileLoading_state in Hc.
  destruct (Hc eq_refl) as [He _]. discriminate He.
Qed.

(** Claim C8, amended: when the generate handler starts a call it sets the
    loading flag and sets the error and the generated image to null in the
    same step; and whenever the loading flag is true, exactly one call is
    pending and the generated image is null. *)
Theorem loading_implies_no_result (c : System) (Hc : reachable c) :
  (forall s' call,
      handleGenerate (ui c) = (s', Some call) ->
      isLoading s' = true /\ error s' = None /\ generatedImage s' = None)
  /\ (isLoading (ui c) = true ->
      generatedImage (ui c) = None /\ exists call, calls c = [call]).
Proof.
  split.
  - intros s' call. unfold handleGenerate.
    destruct (originalImage (ui c)) as [u|]; [|discriminate].
    destruct (negb (Js.truthy (Some u))); [discriminate|].
    destruct (dataURLToImageData u) as [img|]; [|discriminate].
    intros [= <- _]. repeat split.
  - intros HL. destruct (reachable_consistent c Hc) as [Hres Hcall _ _ _].
    rewrite HL in Hcall. auto.
Qed.

Lemma loading_implies_no_result_witness :
  (forall s' call,
      handleGenerate (ui (Scenario.exec Scenario.uploadPng)) = (s', Some call) ->
      isLoading s' = true /\ error s' = None /\ generatedImage s' = None)
  /\ (isLoading (ui (Scenario.exec Scenario.uploadPng)) = true ->
      generatedImage (ui (Scenario.exec Scenario.uploadPng)) = None
      /\ exists call, calls (Scenario.exec Scenario.uploadPng) = [call]).
Proof.
  apply (loading_implies_no_result (Scenario.exec Scenario.uploadPng)).
  apply exec_reachable.
Defined.

(** ** The generation client *)

Section Client.

Lemma append_assoc (a b c : string) : (a ++ b) ++ c = a ++ b ++ c.
Proof. induction a as [|x a IH]; simpl; [reflexivity | now rewrite IH]. Qed.

Lemma append_empty_r (a : string) : a ++ EmptyString = a.
Proof. induction a as [|x a IH]; simpl; [reflexivity | now rewrite IH]. Qed.

Lemma prefix_append (n a : string) : String.prefix n (n ++ a) = true.
Proof.
  induction n as [|x n IH]; simpl.
  - now destruct a.
  - destruct (ascii_dec x x) as [_|Hx]; [exact IH | now elim Hx].
Qed.

Lemma occursb_unfold (needle hay : string) :
  occursb needle hay
  = String.prefix needle hay
    || match hay with
       | EmptyString => false
       | String _ rest => occursb needle rest
       end.
Proof. now destruct hay. Qed.

(** An occurrence is found by the test. *)
Lemma occurs_in_occursb (needle hay : string) :
  occurs_in needle hay -> occursb needle hay = true.
Proof.
  intros (before & after & ->).
  induction before as [|x before IH]; rewrite occursb_unfold.
  - simpl. now rewrite prefix_append.
  - simpl. rewrite IH. apply orb_true_r.
Qed.

(** The loop finds nothing exactly when no part has inline data. *)
Lemma firstInlineData_None (ps : list Genai.Part) :
  GeminiService.firstInlineData ps = None
  <-> Forall (fun part => Genai.inlineData part = None) ps.
Proof.
  induction ps as [|part ps IH]; simpl.
  - split; auto.
  - destruct (Genai.inlineData part) as [blob|] eqn:Hp.
    + split; [discriminate|]. intros H; inversion H; congruence.
    + rewrite IH. split; intros H; [now constructor | now inversion H].
Qed.

(** The loop returns the data of the first part that has inline data. *)
Lemma firstInlineData_Some (ps : list Genai.Part) (d : string) :
  GeminiService.firstInlineData ps = Some d
  <-> exists before part blob after,
        ps = (before ++ part :: after)%list
        /\ Forall (fun q => Genai.inlineData q = None) before
        /\ Genai.inlineData part = Some blob
        /\ Genai.data blob = d.
Proof.
  induction ps as [|q ps IH]; simpl.
  - split; [discriminate|].
    intros (before & part & blob & after & H & _). now destruct before.
  - destruct (Genai.inlineData q) as [b|] eqn:Hq.
    + split.
      * intros [= <-]. exists [], q, b, ps. auto.
      * intros (before & part & blob & after & H & Hb & Hp & Hd).
        destruct before as [|q' before]; simpl in H; injection H as -> ->.
        -- congruence.
        -- inversion Hb; congruence.
    + rewrite IH. split.
      * intros (before & part & blob & after & -> & Hb & Hp & Hd).
        exists (q :: before), part, blob, after. auto.
      * intros (before & part & blob & after & H & Hb & Hp & Hd).
        destruct before as [|q' before]; simpl in H; injection H as -> ->.
        -- congruence.
        -- exists before, part, blob, after. inversion Hb; auto.
Qed.

(** How the promise of the client settles once the client is
    constructed. *)
Section Constructed.

Variables (sdk : Genai.Sdk) (baseImage : ImageData) (prompt : string).
Hypothesis constructed : Genai.construct sdk = None.

Lemma generateCartoonImage_constructed :
  GeminiService.generateCartoonImage sdk baseImage prompt
  = ([GeminiService.request baseImage prompt],
     match GeminiService.tryBlock
             (Genai.generateContent sdk
                (GeminiService.request baseImage prompt)) with
     | inl d => Js.Fulfilled d
     | inr e => Js.RejectedWith (GeminiService.catchBlock e)
     end).
Proof. unfold GeminiService.generateCartoonImage. now rewrite constructed. Qed.

End Constructed.

(** The error the client rejects with is an [Error] whose message is not
    empty, so the controller shows this message. *)
Lemma catchBlock_message (e : Js.Thrown) :
  exists m, GeminiService.catchBlock e = Js.ThrownError m
            /\ catchMessage (Js.ThrownError m) = Some m.
Proof.
  destruct e as [m| |]; simpl; eauto.
Qed.

End Client.

(** ** Events of the component *)

Section Steps.

(** A settling call runs the continuation of [handleGenerate] with the
    outcome of the client. *)
Lemma step_GenerationSettles c k sdk c' :
  step c (GenerationSettles k sdk) = Some c' ->
  exists imageData p,
    nth_error (calls c) k = Some (imageData, p)
    /\ c' = {| ui :=
                 handleGenerateSettled
                   (snd (GeminiService.generateCartoonImage sdk imageData p))
                   (ui c);
               readers := readers c;
               calls := remove_nth k (calls c) |}.
Proof.
  simpl. destruct (nth_error (calls c) k) as [[img p]|]; [|discriminate].
  intros [= <-]. eauto.
Qed.

(** In a reachable state a pending call is the only one, the loading flag
    is set and no generated image is stored. *)
Lemma pending_call c k a :
  reachable c -> nth_error (calls c) k = Some a ->
  k = 0 /\ calls c = [a]
  /\ isLoading (ui c) = true /\ generatedImage (ui c) = None.
Proof.
  intros Hc Hk. destruct (reachable_consistent c Hc) as [Hres Hcall _ _ _].
  destruct (isLoading (ui c)).
  - destruct Hcall as [b Hb]. rewrite Hb in Hk |- *.
    destruct k as [|k]; [|destruct k; discriminate].
    injection Hk as ->. auto.
  - rewrite Hcall in Hk. destruct k; discriminate.
Qed.

End Steps.

(** ** Responses without an image, and failing services *)

(** Claim C2, as stated, fails: for a response of two text parts the client
    does not reject with the no-image error itself; the [throw] stands
    inside the [try], so the client's own [catch] re-raises it under the
    prefix of every other failure. *)
Lemma no_image_error_is_reraised :
  let settled :=
    snd (GeminiService.generateCartoonImage
           (Scenario.serviceReturning
              [Scenario.textOnlyPart "no picture"; Scenario.textOnlyPart "sorry"])
           {| mimeType := "image/png"; base64 := Scenario.pngPayload |}
           "pixar style") in
  settled
  = Js.RejectedWith
      (Js.ThrownError
         "Failed to generate image: No image data found in the API response.")
  /\ settled <> Js.RejectedWith (Js.ThrownError GeminiService.noImageMessage).
Proof. split; [reflexivity | discriminate]. Qed.

(** Claim C2, amended: for every response whose parts hold no inline image
    data, however many parts there are, the client rejects with the uniform
    error "Failed to generate image: No image data found in the API
    response."; when the pending call of a reachable state settles so, the
    state shows this message, and no generated image. *)
Theorem no_image_response_rejected
    (sdk : Genai.Sdk) (baseImage : ImageData) (p : string)
    (response : Genai.GenerateContentResponse)
    (candidate : Genai.Candidate) (others : list Genai.Candidate)
    (Hctor : Genai.construct sdk = None)
    (Hres : Genai.generateContent sdk (GeminiService.request baseImage p)
            = Js.Fulfilled response)
    (Hcand : Genai.candidates response = candidate :: others)
    (Hnone : Forall (fun part => Genai.inlineData part = None)
               (Genai.parts (Genai.content candidate))) :
  snd (GeminiService.generateCartoonImage sdk baseImage p)
  = Js.RejectedWith
      (Js.ThrownError
         "Failed to generate image: No image data found in the API response.")
  /\ forall c k c',
       reachable c ->
       nth_error (calls c) k = Some (baseImage, p) ->
       step c (GenerationSettles k sdk) = Some c' ->
       error (ui c')
       = Some "Failed to generate image: No image data found in the API response."
       /\ errorBanner (ui c')
          = Some "Failed to generate image: No image data found in the API response."
       /\ generatedImage (ui c') = None
       /\ resultColumn (ui c') = Placeholder
       /\ isLoading (ui c') = false.
Proof.
  assert (snd (GeminiService.generateCartoonImage sdk baseImage p)
          = Js.RejectedWith
              (Js.ThrownError
                 "Failed to generate image: No image data found in the API response."))
    as Hsettled.
  { rewrite generateCartoonImage_constructed by assumption.
    cbn [snd]. rewrite Hres. unfold GeminiService.tryBlock. rewrite Hcand.
    apply firstInlineData_None in Hnone. rewrite Hnone. reflexivity. }
  split; [exact Hsettled|].
  intros c k c' Hc Hk Hstep.
  apply step_GenerationSettles in Hstep as (img & q & Hk' & ->).
  rewrite Hk in Hk'. injection Hk' as <- <-.
  destruct (pending_call c k _ Hc Hk) as (_ & _ & _ & Hg).
  unfold errorBanner, resultColumn. cbn [ui].
  autorewrite with settled. rewrite Hsettled, Hg.
  repeat split.
Qed.

Lemma no_image_response_rejected_witness :
  snd (GeminiService.generateCartoonImage
         (Scenario.serviceReturning
            [Scenario.textOnlyPart "no picture"; Scenario.textOnlyPart "sorry"])
         {| mimeType := "image/png"; base64 := Scenario.pngPayload |}
         "pixar style")
  = Js.RejectedWith
      (Js.ThrownError
         "Failed to generate image: No image data found in the API response.")
  /\ forall c k c',
       reachable c ->
       nth_error (calls c) k
       = Some ({| mimeType := "image/png"; base64 := Scenario.pngPayload |},
               "pixar style") ->
       step c (GenerationSettles k
                 (Scenario.serviceReturning
                    [Scenario.textOnlyPart "no picture";
                     Scenario.textOnlyPart "sorry"])) = Some c' ->
       error (ui c')
       = Some "Failed to generate image: No image data found in the API response."
       /\ errorBanner (ui c')
          = Some "Failed to generate image: No image data found in the API response."
       /\ generatedImage (ui c') = None
       /\ resultColumn (ui c') = Placeholder
       /\ isLoading (ui c') = false.
Proof.
  apply (no_image_response_rejected
           (Scenario.serviceReturning
              [Scenario.textOnlyPart "no picture"; Scenario.textOnlyPart "sorry"])
           {| mimeType := "image/png"; base64 := Scenario.pngPayload |}
           "pixar style"
           {| Genai.candidates :=
                [{| Genai.content :=
                      {| Genai.parts :=
                           [Scenario.textOnlyPart "no picture";
                            Scenario.textOnlyPart "sorry"] |} |}] |}
           {| Genai.content :=
                {| Genai.parts :=
                     [Scenario.textOnlyPart "no picture";
                      Scenario.textOnlyPart "sorry"] |} |}
           []).
  - reflexivity.
  - reflexivity.
  - reflexivity.
  - simpl. repeat constructor.
Defined.

(** Claim C3, as stated, fails: which message the client raises depends on
    whether the thrown value is an [Error], not on whether it has a
    message.  A thrown value that is no [Error] and has the message "quota
    exceeded" is re-raised with the generic message, in which "quota
    exceeded" does not occur; and a thrown [Error] with the empty message
    is re-raised with the bare prefix, not with the generic message. *)
Lemma error_message_not_by_presence :
  snd (GeminiService.generateCartoonImage
         (Scenario.serviceThrowing (Js.ThrownOther (Some "quota exceeded")))
         {| mimeType := "image/png"; base64 := Scenario.pngPayload |}
         "pixar style")
  = Js.RejectedWith
      (Js.ThrownError "An unknown error occurred while generating the image.")
  /\ ~ occurs_in "quota exceeded"
         "An unknown error occurred while generating the image."
  /\ snd (GeminiService.generateCartoonImage
            (Scenario.serviceThrowing (Js.ThrownError EmptyString))
            {| mimeType := "image/png"; base64 := Scenario.pngPayload |}
            "pixar style")
     = Js.RejectedWith (Js.ThrownError "Failed to generate image: ")
  /\ "Failed to generate image: "
     <> "An unknown error occurred while generating the image.".
Proof.
  split; [reflexivity|]. split; [|split; [reflexivity | discriminate]].
  intros H. apply occurs_in_occursb in H. vm_compute in H. discriminate H.
Qed.

(** Claim C3, amended: when the call of the service throws, the client
    rejects with an [Error] of one form: for a thrown [Error], the prefix
    "Failed to generate image: " followed by its message, also when that
    message is empty; for a thrown value that is no [Error], the generic
    message "An unknown error occurred while generating the image.", whether
    or not the value has a message.  When the pending call of a reachable
    state settles so, the state holds this message, the loading flag is
    false and no generated image is stored.  The session in which the
    service throws the error "rate limited" ends with the error "Failed to
    generate image: rate limited", the loading flag false and no generated
    image. *)
Theorem service_error_reraised
    (sdk : Genai.Sdk) (baseImage : ImageData) (p : string) (e : Js.Thrown)
    (Hctor : Genai.construct sdk = None)
    (Hrej : Genai.generateContent sdk (GeminiService.request baseImage p)
            = Js.RejectedWith e) :
  let message :=
    match e with
    | Js.ThrownError underlying => "Failed to generate image: " ++ underlying
    | _ => "An unknown error occurred while generating the image."
    end in
  snd (GeminiService.generateCartoonImage sdk baseImage p)
  = Js.RejectedWith (Js.ThrownError message)
  /\ option_map ui (run start Scenario.generationRateLimited)
     = Some {| prompt := "pixar style";
               originalImage := Some "data:image/png;base64,iVBORw0KGgo=";
               generatedImage := None;
               isLoading := false;
               error := Some "Failed to generate image: rate limited" |}
  /\ forall c k c',
       reachable c ->
       nth_error (calls c) k = Some (baseImage, p) ->
       step c (GenerationSettles k sdk) = Some c' ->
       error (ui c') = Some message
       /\ isLoading (ui c') = false
       /\ generatedImage (ui c') = None.
Proof.
  intros message.
  assert (snd (GeminiService.generateCartoonImage sdk baseImage p)
          = Js.RejectedWith (Js.ThrownError message)) as Hsettled.
  { rewrite generateCartoonImage_constructed by assumption.
    cbn [snd]. rewrite Hrej. subst message. now destruct e. }
  split; [exact Hsettled|]. split.
  - reflexivity.
  - intros c k c' Hc Hk Hstep.
    apply step_GenerationSettles in Hstep as (img & q & Hk' & ->).
    rewrite Hk in Hk'. injection Hk' as <- <-.
    destruct (pending_call c k _ Hc Hk) as (_ & _ & _ & Hg).
    cbn [ui]. autorewrite with settled. rewrite Hsettled, Hg.
    repeat split.
    destruct (catchBlock_message e) as (m & Hm & Hshown).
    assert (m = message) as <-; [|now rewrite Hshown].
    subst message. destruct e; injection Hm as <-; reflexivity.
Qed.

Lemma service_error_reraised_witness :
  snd (GeminiService.generateCartoonImage
         (Scenario.serviceThrowing (Js.ThrownError "rate limited"))
         {| mimeType := "image/png"; base64 := Scenario.pngPayload |}
         "pixar style")
  = Js.RejectedWith (Js.ThrownError "Failed to generate image: rate limited")
  /\ option_map ui (run start Scenario.generationRateLimited)
     = Some {| prompt := "pixar style";
               originalImage := Some "data:image/png;base64,iVBORw0KGgo=";
               generatedImage := None;
               isLoading := false;
               error := Some "Failed to generate image: rate limited" |}
  /\ forall c k c',
       reachable c ->
       nth_error (calls c) k
       = Some ({| mimeType := "image/png"; base64 := Scenario.pngPayload |},
               "pixar style") ->
       step c (GenerationSettles k
                 (Scenario.serviceThrowing (Js.ThrownError "rate limited")))
       = Some c' ->
       error (ui c') = Some "Failed to generate image: rate limited"
       /\ isLoading (ui c') = false
       /\ generatedImage (ui c') = None.
Proof.
  apply (service_error_reraised
           (Scenario.serviceThrowing (Js.ThrownError "rate limited"))
           {| mimeType := "image/png"; base64 := Scenario.pngPayload |}
           "pixar style"
           (Js.ThrownError "rate limited")).
  - reflexivity.
  - reflexivity.
Defined.

(** ** The instruction sent to the service *)

(** Claim C4: for every stored image that decodes, triggering generation
    calls the client with the decoded image and the style string, and the
    one request the client sends carries, after the image, the instruction
    spelled out below: the fixed opening, the style string as it is between
    two double quotes (the character of code 34), and the sentence "If no
    specific instructions are provided, create a standard, high-quality
    cartoon version.".  So the style string occurs verbatim in the
    instruction, that sentence occurs in it for every style string, and with
    the empty style string the instruction is the opening, two double
    quotes and that sentence. *)
Theorem style_embedded_in_instruction
    (s : AppState) (u : string) (imageData : ImageData) (sdk : Genai.Sdk)
    (Hu : originalImage s = Some u)
    (Himg : dataURLToImageData u = Some imageData)
    (Hctor : Genai.construct sdk = None) :
  exists s' instruction,
    handleGenerate s = (s', Some (imageData, prompt s))
    /\ fst (GeminiService.generateCartoonImage sdk imageData (prompt s))
       = [{| Genai.model := "gemini-2.5-flash-image";
             Genai.contents :=
               {| Genai.parts :=
                    [{| Genai.inlineData :=
                          Some {| Genai.data := base64 imageData;
                                  Genai.mimeType := mimeType imageData |};
                        Genai.text := None |};
                     {| Genai.inlineData := None;
                        Genai.text := Some instruction |}] |};
             Genai.responseModalities := [Genai.IMAGE] |}]
    /\ instruction
       = "Generate a cartoon-style headshot based on the provided image. The style should be vibrant, friendly, and suitable for a profile picture. Apply the following user instructions: "
         ++ String "034"%char
              (prompt s
               ++ String "034"%char
                    ". If no specific instructions are provided, create a standard, high-quality cartoon version.")
    /\ occurs_in (prompt s) instruction
    /\ occurs_in
         "If no specific instructions are provided, create a standard, high-quality cartoon version."
         instruction
    /\ (prompt s = EmptyString ->
        instruction
        = "Generate a cartoon-style headshot based on the provided image. The style should be vibrant, friendly, and suitable for a profile picture. Apply the following user instructions: "
          ++ String "034"%char
               (String "034"%char
                  ". If no specific instructions are provided, create a standard, high-quality cartoon version.")).
Proof.
  assert (Js.truthy (Some u) = true) as Ht.
  { destruct u; [discriminate Himg | reflexivity]. }
  exists (setGeneratedImage None (setError None (setIsLoading true s))),
         (GeminiService.fullPrompt (prompt s)).
  split; [|split; [|split; [|split; [|split]]]].
  - unfold handleGenerate. now rewrite Hu, Ht, Himg.
  - now rewrite generateCartoonImage_constructed.
  - reflexivity.
  - exists GeminiService.promptHead, GeminiService.promptTail. reflexivity.
  - exists (GeminiService.promptHead ++ prompt s ++ Js.dquote ++ ". "),
           EmptyString.
    unfold GeminiService.fullPrompt.
    rewrite append_empty_r, !append_assoc. reflexivity.
  - intros ->. reflexivity.
Qed.

Lemma style_embedded_in_instruction_witness :
  exists s' instruction,
    handleGenerate (ui (Scenario.exec Scenario.uploadPng)) = (s', Some ({| mimeType := "image/png"; base64 := Scenario.pngPayload |}, prompt (ui (Scenario.exec Scenario.uploadPng))))
    /\ fst (GeminiService.generateCartoonImage (Scenario.serviceReturning []) {| mimeType := "image/png"; base64 := Scenario.pngPayload |} (prompt (ui (Scenario.exec Scenario.uploadPng))))
       = [{| Genai.model := "gemini-2.5-flash-image";
             Genai.contents :=
               {| Genai.parts :=
                    [{| Genai.inlineData :=
                          Some {| Genai.data := base64 {| mimeType := "image/png"; base64 := Scenario.pngPayload |};
                                  Genai.mimeType := mimeType {| mimeType := "image/png"; base64 := Scenario.pngPayload |} |};
                        Genai.text := None |};
                     {| Genai.inlineData := None;
                        Genai.text := Some instruction |}] |};
             Genai.responseModalities := [Genai.IMAGE] |}]
    /\ instruction
       = "Generate a cartoon-style headshot based on the provided image. The style should be vibrant, friendly, and suitable for a profile picture. Apply the following user instructions: "
         ++ String "034"%char
              (prompt (ui (Scenario.exec Scenario.uploadPng))
               ++ String "034"%char
                    ". If no specific instructions are provided, create a standard, high-quality cartoon version.")
    /\ occurs_in (prompt (ui (Scenario.exec Scenario.uploadPng))) instruction
    /\ occurs_in
         "If no specific instructions are provided, create a standard, high-quality cartoon version."
         instruction
    /\ (prompt (ui (Scenario.exec Scenario.uploadPng)) = EmptyString ->
        instruction
        = "Generate a cartoon-style headshot based on the provided image. The style should be vibrant, friendly, and suitable for a profile picture. Apply the following user instructions: "
          ++ String "034"%char
               (String "034"%char
                  ". If no specific instructions are provided, create a standard, high-quality cartoon version.")).
Proof.
  apply (style_embedded_in_instruction
           (ui (Scenario.exec Scenario.uploadPng))
           "data:image/png;base64,iVBORw0KGgo="
           {| mimeType := "image/png"; base64 := Scenario.pngPayload |}
           (Scenario.serviceReturning [])).
  - reflexivity.
  - reflexivity.
  - reflexivity.
Defined.

(** ** The loading flag *)

(** Claim C5: the continuation of the generate handler ends with the
    loading flag false whether the call resolved or rejected; and in every
    reachable state in which the flag is true a call is pending, and however
    it settles the next state has the flag false, no call pending and the
    prompt box enabled again. *)
Theorem loading_cleared_after_attempt
    (c : System) (sdk : Genai.Sdk)
    (Hc : reachable c) (HL : isLoading (ui c) = true) :
  (forall (r : Js.Settled string) (s : AppState),
      isLoading (handleGenerateSettled r s) = false)
  /\ exists c',
       step c (GenerationSettles 0 sdk) = Some c'
       /\ isLoading (ui c') = false
       /\ promptDisabled (ui c') = false
       /\ calls c' = [].
Proof.
  split; [intros r s; apply settled_isLoading|].
  destruct (reachable_consistent c Hc) as [_ Hcall _ _ _].
  rewrite HL in Hcall. destruct Hcall as [[img p] Hcall].
  simpl. rewrite Hcall. simpl. eexists. split; [reflexivity|]. auto.
Qed.

Lemma loading_cleared_after_attempt_witness :
  (forall (r : Js.Settled string) (s : AppState),
      isLoading (handleGenerateSettled r s) = false)
  /\ exists c',
       step (Scenario.exec Scenario.startGeneration)
         (GenerationSettles 0
            (Scenario.serviceThrowing (Js.ThrownError "rate limited")))
       = Some c'
       /\ isLoading (ui c') = false
       /\ promptDisabled (ui c') = false
       /\ calls c' = [].
Proof.
  apply (loading_cleared_after_attempt
           (Scenario.exec Scenario.startGeneration)
           (Scenario.serviceThrowing (Js.ThrownError "rate limited"))).
  - apply exec_reachable.
  - reflexivity.
Defined.

(** ** Picking a file *)

(** Claim C6: for a picked file whose declared type does not start with
    "image/", the handler sets the error message and nothing else: the
    source image, the generated image, the prompt and the loading flag keep
    their values, no reader is started and no call is made. *)
Theorem invalid_file_leaves_images
    (c : System) (f : File)
    (Htype : Js.startsWith (type f) "image/" = false) :
  handleFileChange (Some f) (ui c)
  = (setError (Some "Please upload a valid image file (PNG, JPG, etc.).") (ui c),
     None)
  /\ exists c',
       step c (FileChange (Some f)) = Some c'
       /\ error (ui c') = Some "Please upload a valid image file (PNG, JPG, etc.)."
       /\ originalImage (ui c') = originalImage (ui c)
       /\ generatedImage (ui c') = generatedImage (ui c)
       /\ prompt (ui c') = prompt (ui c)
       /\ isLoading (ui c') = isLoading (ui c)
       /\ readers c' = readers c
       /\ calls c' = calls c.
Proof.
  assert (handleFileChange (Some f) (ui c)
          = (setError (Some "Please upload a valid image file (PNG, JPG, etc.).")
               (ui c), None)) as Hh.
  { unfold handleFileChange. now rewrite Htype. }
  split; [exact Hh|].
  unfold step. rewrite Hh. eexists. split; [reflexivity|].
  cbn [ui readers calls]. rewrite app_nil_r. repeat split.
Qed.

Lemma invalid_file_leaves_images_witness :
  handleFileChange (Some Scenario.textFile)
    (ui (Scenario.exec Scenario.generationSucceeds))
  = (setError (Some "Please upload a valid image file (PNG, JPG, etc.).")
       (ui (Scenario.exec Scenario.generationSucceeds)),
     None)
  /\ exists c',
       step (Scenario.exec Scenario.generationSucceeds)
         (FileChange (Some Scenario.textFile)) = Some c'
       /\ error (ui c') = Some "Please upload a valid image file (PNG, JPG, etc.)."
       /\ originalImage (ui c')
          = originalImage (ui (Scenario.exec Scenario.generationSucceeds))
       /\ generatedImage (ui c')
          = generatedImage (ui (Scenario.exec Scenario.generationSucceeds))
       /\ prompt (ui c') = prompt (ui (Scenario.exec Scenario.generationSucceeds))
       /\ isLoading (ui c')
          = isLoading (ui (Scenario.exec Scenario.generationSucceeds))
       /\ readers c' = readers (Scenario.exec Scenario.generationSucceeds)
       /\ calls c' = calls (Scenario.exec Scenario.generationSucceeds).
Proof.
  apply (invalid_file_leaves_images
           (Scenario.exec Scenario.generationSucceeds) Scenario.textFile).
  reflexivity.
Defined.

(** Claim C7: picking a file whose declared type starts with "image/"
    while a generated image is present starts a read and changes no state
    cell; when that read succeeds, its completion stores the data URL of
    the file as the source image and sets the generated image and the
    error to null, whatever the state cells hold by then. *)
Theorem new_source_clears_result
    (c : System) (f : File) (g payload : string)
    (Htype : Js.startsWith (type f) "image/" = true)
    (Hg : generatedImage (ui c) = Some g) :
  (exists c1 c2,
      step c (FileChange (Some f)) = Some c1
      /\ ui c1 = ui c
      /\ readers c1 = (readers c ++ [f])%list
      /\ step c1 (ReaderSettles (length (readers c)) (ReadOk payload)) = Some c2
      /\ originalImage (ui c2) = Some (readAsDataURL f payload)
      /\ generatedImage (ui c2) = None
      /\ error (ui c2) = None
      /\ resultColumn (ui c2)
         = if isLoading (ui c) then LoadingSpinner else Placeholder)
  /\ forall s : AppState,
       originalImage (readerSettles f (ReadOk payload) s)
       = Some (readAsDataURL f payload)
       /\ generatedImage (readerSettles f (ReadOk payload) s) = None
       /\ error (readerSettles f (ReadOk payload) s) = None.
Proof.
  split; [|intros s; repeat split].
  assert (handleFileChange (Some f) (ui c) = (ui c, Some f)) as Hh.
  { unfold handleFileChange. now rewrite Htype. }
  unfold step at 1. rewrite Hh.
  do 2 eexists. split; [reflexivity|]. cbn [ui readers calls].
  split; [reflexivity|]. split; [reflexivity|].
  unfold step. cbn [ui readers calls].
  rewrite nth_error_app2, Nat.sub_diag by apply Nat.le_refl.
  cbn [nth_error]. split; [reflexivity|].
  unfold resultColumn. cbn. repeat split.
Qed.

Lemma new_source_clears_result_witness :
  (exists c1 c2,
      step (Scenario.exec Scenario.generationSucceeds)
        (FileChange (Some Scenario.svgFile)) = Some c1
      /\ ui c1 = ui (Scenario.exec Scenario.generationSucceeds)
      /\ readers c1
         = (readers (Scenario.exec Scenario.generationSucceeds)
            ++ [Scenario.svgFile])%list
      /\ step c1
           (ReaderSettles
              (length (readers (Scenario.exec Scenario.generationSucceeds)))
              (ReadOk "PHN2Zy8+")) = Some c2
      /\ originalImage (ui c2)
         = Some (readAsDataURL Scenario.svgFile "PHN2Zy8+")
      /\ generatedImage (ui c2) = None
      /\ error (ui c2) = None
      /\ resultColumn (ui c2)
         = if isLoading (ui (Scenario.exec Scenario.generationSucceeds))
           then LoadingSpinner else Placeholder)
  /\ forall s : AppState,
       originalImage (readerSettles Scenario.svgFile (ReadOk "PHN2Zy8+") s)
       = Some (readAsDataURL Scenario.svgFile "PHN2Zy8+")
       /\ generatedImage
            (readerSettles Scenario.svgFile (ReadOk "PHN2Zy8+") s) = None
       /\ error (readerSettles Scenario.svgFile (ReadOk "PHN2Zy8+") s) = None.
Proof.
  apply (new_source_clears_result
           (Scenario.exec Scenario.generationSucceeds) Scenario.svgFile
           "data:image/png;base64,QUJD" "PHN2Zy8+").
  - reflexivity.
  - reflexivity.
Defined.

(** ** Stored images the pattern rejects *)

Section StoredImage.

(** The data URL of an SVG file passes the check of the upload and fails
    the pattern: the run of word characters stops at [+]. *)
Lemma svg_data_url_unmatched (payload : string) :
  Js.startsWith (type Scenario.svgFile) "image/" = true
  /\ readAsDataURL Scenario.svgFile payload
     = "data:image/svg+xml;base64," ++ payload
  /\ ~ matches_data_url_pattern (readAsDataURL Scenario.svgFile payload).
Proof.
  split; [reflexivity|]. split; [reflexivity|].
  apply dataURLToImageData_None. reflexivity.
Qed.

End StoredImage.

(** Claim C9: in every reachable state whose stored source image does not
    match the pattern [data:image/<word-characters>;base64,<payload>], the
    generate handler sets the error "Invalid image data format.", makes no
    call of the client and writes no other state cell; a click on the
    enabled button then leaves no call pending and the loading flag false.
    The data URL of a file of type "image/svg+xml", which the upload
    accepts, is such a string. *)
Theorem unmatched_source_rejected
    (c : System) (u : string)
    (Hc : reachable c)
    (Hu : originalImage (ui c) = Some u)
    (Hm : ~ matches_data_url_pattern u) :
  handleGenerate (ui c)
  = (setError (Some "Invalid image data format.") (ui c), None)
  /\ (isLoading (ui c) = false ->
      exists c',
        step c GenerateClick = Some c'
        /\ error (ui c') = Some "Invalid image data format."
        /\ calls c' = []
        /\ isLoading (ui c') = false
        /\ originalImage (ui c') = Some u
        /\ generatedImage (ui c') = generatedImage (ui c))
  /\ (forall payload,
        Js.startsWith (type Scenario.svgFile) "image/" = true
        /\ ~ matches_data_url_pattern (readAsDataURL Scenario.svgFile payload)).
Proof.
  destruct (reachable_consistent c Hc) as [_ Hcall Ho _ _].
  assert (Js.truthy (Some u) = true) as Ht.
  { destruct u; [congruence | reflexivity]. }
  apply dataURLToImageData_None in Hm.
  assert (handleGenerate (ui c)
          = (setError (Some "Invalid image data format.") (ui c), None)) as Hh.
  { unfold handleGenerate. now rewrite Hu, Ht, Hm. }
  split; [exact Hh|]. split.
  - intros HL. rewrite HL in Hcall.
    unfold step, generateDisabled. rewrite HL, Hu, Ht, Hh. cbn [orb negb].
    eexists. split; [reflexivity|]. cbn [ui calls].
    rewrite Hcall. repeat split; assumption.
  - intros payload. destruct (svg_data_url_unmatched payload) as (? & _ & ?).
    auto.
Qed.

Lemma unmatched_source_rejected_witness :
  handleGenerate (ui (Scenario.exec Scenario.uploadSvg))
  = (setError (Some "Invalid image data format.")
       (ui (Scenario.exec Scenario.uploadSvg)), None)
  /\ (isLoading (ui (Scenario.exec Scenario.uploadSvg)) = false ->
      exists c',
        step (Scenario.exec Scenario.uploadSvg) GenerateClick = Some c'
        /\ error (ui c') = Some "Invalid image data format."
        /\ calls c' = []
        /\ isLoading (ui c') = false
        /\ originalImage (ui c') = Some "data:image/svg+xml;base64,PHN2Zy8+"
        /\ generatedImage (ui c')
           = generatedImage (ui (Scenario.exec Scenario.uploadSvg)))
  /\ (forall payload,
        Js.startsWith (type Scenario.svgFile) "image/" = true
        /\ ~ matches_data_url_pattern (readAsDataURL Scenario.svgFile payload)).
Proof.
  apply (unmatched_source_rejected
           (Scenario.exec Scenario.uploadSvg)
           "data:image/svg+xml;base64,PHN2Zy8+").
  - apply exec_reachable.
  - reflexivity.
  - apply dataURLToImageData_None. reflexivity.
Defined.

(** ** The stored result *)

(** Claim C10: when the service answers with a response whose first part
    with inline data carries [d], the client resolves with [d] and the
    settling call stores exactly "data:image/png;base64," followed by [d]
    as the generated image, which the result column shows and the download
    saves as cartoon-headshot.png; the media type of the source image and
    the media type the service declares for the data play no part. *)
Theorem generated_image_is_png_data_url
    (c : System) (k : nat) (sdk : Genai.Sdk)
    (baseImage : ImageData) (p : string)
    (response : Genai.GenerateContentResponse)
    (candidate : Genai.Candidate) (others : list Genai.Candidate)
    (before after : list Genai.Part) (part : Genai.Part) (blob : Genai.Blob)
    (Hk : nth_error (calls c) k = Some (baseImage, p))
    (Hctor : Genai.construct sdk = None)
    (Hres : Genai.generateContent sdk (GeminiService.request baseImage p)
            = Js.Fulfilled response)
    (Hcand : Genai.candidates response = candidate :: others)
    (Hparts : Genai.parts (Genai.content candidate)
              = (before ++ part :: after)%list)
    (Hbefore : Forall (fun q => Genai.inlineData q = None) before)
    (Hpart : Genai.inlineData part = Some blob) :
  snd (GeminiService.generateCartoonImage sdk baseImage p)
  = Js.Fulfilled (Genai.data blob)
  /\ (forall s : AppState,
        generatedImage (handleGenerateSettled (Js.Fulfilled (Genai.data blob)) s)
        = Some ("data:image/png;base64," ++ Genai.data blob))
  /\ exists c',
       step c (GenerationSettles k sdk) = Some c'
       /\ generatedImage (ui c')
          = Some ("data:image/png;base64," ++ Genai.data blob)
       /\ resultColumn (ui c')
          = GeneratedImg ("data:image/png;base64," ++ Genai.data blob)
       /\ downloadImage (ui c')
          = Some ("data:image/png;base64," ++ Genai.data blob,
                  "cartoon-headshot.png")
       /\ isLoading (ui c') = false.
Proof.
  assert (snd (GeminiService.generateCartoonImage sdk baseImage p)
          = Js.Fulfilled (Genai.data blob)) as Hsettled.
  { rewrite generateCartoonImage_constructed by assumption.
    cbn [snd]. rewrite Hres. unfold GeminiService.tryBlock. rewrite Hcand.
    assert (GeminiService.firstInlineData (Genai.parts (Genai.content candidate))
            = Some (Genai.data blob)) as ->; [|reflexivity].
    apply firstInlineData_Some. exists before, part, blob, after. auto. }
  split; [exact Hsettled|]. split; [reflexivity|].
  unfold step. rewrite Hk, Hsettled. eexists. split; [reflexivity|].
  repeat split.
Qed.

Lemma generated_image_is_png_data_url_witness :
  snd (GeminiService.generateCartoonImage
         (Scenario.serviceReturning
            [Scenario.textOnlyPart "here"; Scenario.inlinePart "QUJD"])
         {| mimeType := "image/png"; base64 := Scenario.pngPayload |}
         "pixar style")
  = Js.Fulfilled "QUJD"
  /\ (forall s : AppState,
        generatedImage (handleGenerateSettled (Js.Fulfilled "QUJD") s)
        = Some "data:image/png;base64,QUJD")
  /\ exists c',
       step (Scenario.exec Scenario.startGeneration)
         (GenerationSettles 0
            (Scenario.serviceReturning
               [Scenario.textOnlyPart "here"; Scenario.inlinePart "QUJD"]))
       = Some c'
       /\ generatedImage (ui c') = Some "data:image/png;base64,QUJD"
       /\ resultColumn (ui c') = GeneratedImg "data:image/png;base64,QUJD"
       /\ downloadImage (ui c')
          = Some ("data:image/png;base64,QUJD", "cartoon-headshot.png")
       /\ isLoading (ui c') = false.
Proof.
  apply (generated_image_is_png_data_url
           (Scenario.exec Scenario.startGeneration) 0
           (Scenario.serviceReturning
              [Scenario.textOnlyPart "here"; Scenario.inlinePart "QUJD"])
           {| mimeType := "image/png"; base64 := Scenario.pngPayload |}
           "pixar style"
           {| Genai.candidates :=
                [{| Genai.content :=
                      {| Genai.parts :=
                           [Scenario.textOnlyPart "here";
                            Scenario.inlinePart "QUJD"] |} |}] |}
           {| Genai.content :=
                {| Genai.parts :=
                     [Scenario.textOnlyPart "here";
                      Scenario.inlinePart "QUJD"] |} |}
           []
           [Scenario.textOnlyPart "here"] []
           (Scenario.inlinePart "QUJD")
           {| Genai.data := "QUJD"; Genai.mimeType := "image/jpeg" |}).
  - reflexivity.
  - reflexivity.
  - reflexivity.
  - reflexivity.
  - reflexivity.
  - repeat constructor.
  - reflexivity.
Defined.

(* ================================================================== *)
(** * Further properties of the handlers and of the client *)

(** ** Shapes kept by every event *)

Section Shapes.

Import Shape.

Lemma startsWith_app (s lit : string) :
  Js.startsWith s lit = true <-> exists r, s = lit ++ r.
Proof.
  unfold Js.startsWith. revert s.
  induction lit as [|a lit IH]; intros s.
  - split; [intros _; exists s; reflexivity|]. intros _. now destruct s.
  - destruct s as [|b s]; simpl.
    + split; [discriminate | intros [r Hr]; discriminate Hr].
    + destruct (ascii_dec a b) as [->|Hab].
      * rewrite IH. split; intros [r Hr]; exists r; [now rewrite Hr|].
        now injection Hr.
      * split; [discriminate|]. intros [r Hr]. injection Hr as Hb _.
        congruence.
Qed.

Lemma remove_nth_In {A : Type} (k : nat) (l : list A) (x : A) :
  In x (remove_nth k l) -> In x l.
Proof.
  unfold remove_nth. revert k; induction l as [|a l IH]; intros k.
  - now destruct k.
  - destruct k as [|k]; simpl.
    + auto.
    + intros [->|H]; [now left | right; eauto].
Qed.

Lemma Forall_remove_nth {A : Type} (P : A -> Prop) (k : nat) (l : list A) :
  Forall P l -> Forall P (remove_nth k l).
Proof.
  rewrite !Forall_forall. intros H x Hx. eapply H, remove_nth_In, Hx.
Qed.

Lemma wellShaped_start : wellShaped start.
Proof. constructor; simpl; auto; discriminate. Qed.

Lemma wellShaped_step (c : System) (e : Event) (c' : System) :
  consistent c -> wellShaped c -> step c e = Some c' -> wellShaped c'.
Proof.
  intros [_ Hcall _ _ _] [Hr Ho Hg Hp] Hstep.
  destruct e as [file|k r| v | |k sdk| ]; simpl in Hstep.
  - (* FileChange *)
    unfold handleFileChange in Hstep.
    destruct file as [f|]; [destruct (negb _) eqn:Hf|];
      injection Hstep as <-; constructor; cbn [ui readers calls];
      rewrite ?app_nil_r; auto.
    apply Forall_app. split; [assumption|]. constructor; [|constructor].
    unfold declaredImage. now destruct (Js.startsWith (type f) "image/").
  - (* ReaderSettles *)
    destruct (nth_error (readers c) k) as [f|] eqn:Hk; [|discriminate].
    injection Hstep as <-.
    assert (declaredImage f) as Hf.
    { rewrite Forall_forall in Hr. eapply Hr, nth_error_In, Hk. }
    constructor; cbn [ui readers calls].
    + now apply Forall_remove_nth.
    + destruct r as [payload|]; simpl; [|discriminate].
      intros u [= <-]. eauto.
    + destruct r; simpl; discriminate.
    + now destruct r.
  - (* PromptChange *)
    unfold promptDisabled in Hstep.
    destruct (isLoading (ui c)); [discriminate|].
    injection Hstep as <-. constructor; cbn [ui readers calls]; auto.
    rewrite Hcall. constructor.
  - (* GenerateClick *)
    destruct (generateDisabled (ui c)); [discriminate|].
    unfold handleGenerate in Hstep.
    destruct (originalImage (ui c)) as [u|] eqn:HO.
    + destruct (negb (Js.truthy (Some u))).
      * injection Hstep as <-. constructor; simpl;
          rewrite ?app_nil_r, ?HO; auto.
      * destruct (dataURLToImageData u) as [img|];
          injection Hstep as <-; constructor; simpl;
          rewrite ?app_nil_r, ?HO; auto; try discriminate.
        apply Forall_app. split; [assumption|]. now repeat constructor.
    + injection Hstep as <-. constructor; simpl;
        rewrite ?app_nil_r, ?HO; auto.
  - (* GenerationSettles *)
    destruct (nth_error (calls c) k) as [[img p]|]; [|discriminate].
    injection Hstep as <-.
    constructor; cbn [ui readers calls]; autorewrite with settled; auto.
    + intros g. destruct (snd _) as [b|e]; [|apply Hg].
      intros H. exists b. congruence.
    + now apply Forall_remove_nth.
  - (* DownloadClick *)
    destruct (resultColumn (ui c)); try discriminate.
    now injection Hstep as <-.
Qed.

Lemma reachable_wellShaped (c : System) : reachable c -> wellShaped c.
Proof.
  intros Hc.
  enough (consistent c /\ wellShaped c) as [_ H]; [exact H|].
  revert c Hc. apply reachable_invariant.
  - split; [exact consistent_start | exact wellShaped_start].
  - intros c e c' [Hcons Hshape] Hstep. split.
    + now apply consistent_step with c e.
    + now apply wellShaped_step with c e.
Qed.

End Shapes.

(** ** Events on files *)

Section FileEvents.

Variable c : System.

Lemma step_FileChange_image (f : File) :
  Js.startsWith (type f) "image/" = true ->
  step c (FileChange (Some f))
  = Some {| ui := ui c; readers := (readers c ++ [f])%list; calls := calls c |}.
Proof.
  intros Hf. unfold step, handleFileChange. now rewrite Hf.
Qed.

Lemma nth_error_last {A : Type} (l : list A) (x : A) :
  nth_error (l ++ [x]) (length l) = Some x.
Proof.
  rewrite nth_error_app2, Nat.sub_diag by apply Nat.le_refl. reflexivity.
Qed.

Lemma remove_nth_last {A : Type} (l : list A) (x : A) :
  remove_nth (length l) (l ++ [x]) = l.
Proof.
  unfold remove_nth.
  rewrite skipn_all2 by (rewrite length_app; simpl; lia).
  rewrite firstn_app, firstn_all, Nat.sub_diag. simpl.
  now rewrite !app_nil_r.
Qed.

End FileEvents.

(** ** [dataURLToImageData] *)

(** X1: decoding and reassembling are inverse.  [dataURLToImageData]
    returns [img] for [u] exactly when [u] is "data:", the media type of
    [img], ";base64," and the payload of [img], the media type is "image/"
    followed by one or more word characters, and the payload holds no line
    terminator. *)
Theorem dataURLToImageData_round_trip (u : string) (img : ImageData) :
  dataURLToImageData u = Some img
  <-> (u = "data:" ++ mimeType img ++ ";base64," ++ base64 img
       /\ (exists w, mimeType img = "image/" ++ w
                     /\ w <> EmptyString /\ Regex.all_word w = true)
       /\ Regex.dot_star_end (base64 img) = true).
Proof.
  rewrite dataURLToImageData_Some. split.
  - intros (w & payload & -> & Hw & Hall & Hd & ->). cbn [mimeType base64].
    split; [reflexivity|]. split; [exists w; auto | assumption].
  - intros (-> & (w & Hm & Hw & Hall) & Hd). exists w, (base64 img).
    destruct img as [m b]; cbn [mimeType base64] in *. subst m.
    repeat split; auto.
Qed.

(** ** From the picked file to the request *)

(** X2: for a file whose declared type is "image/" followed by word
    characters and whose contents encode to a payload on one line, picking
    the file, the end of its read and a click on the generate button start
    one call, and the image part of its request carries the declared type
    and the payload of the file as they are. *)
Theorem upload_then_generate
    (c : System) (f : File) (w payload : string)
    (Htype : type f = "image/" ++ w)
    (Hw : w <> EmptyString)
    (Hall : Regex.all_word w = true)
    (Hpayload : Regex.dot_star_end payload = true)
    (HL : isLoading (ui c) = false) :
  exists c',
    run c [FileChange (Some f);
           ReaderSettles (length (readers c)) (ReadOk payload);
           GenerateClick] = Some c'
    /\ calls c'
       = (calls c
          ++ [({| mimeType := type f; base64 := payload |}, prompt (ui c))])%list
    /\ isLoading (ui c') = true
    /\ error (ui c') = None
    /\ generatedImage (ui c') = None
    /\ Genai.parts
         (Genai.contents
            (GeminiService.request
               {| mimeType := type f; base64 := payload |} (prompt (ui c))))
       = [{| Genai.inlineData :=
               Some {| Genai.data := payload; Genai.mimeType := type f |};
             Genai.text := None |};
          GeminiService.textPart (prompt (ui c))].
Proof.
  assert (Js.startsWith (type f) "image/" = true) as Hf.
  { apply startsWith_app. eauto. }
  assert (dataURLToImageData (readAsDataURL f payload)
          = Some {| mimeType := type f; base64 := payload |}) as Hdec.
  { apply dataURLToImageData_Some. exists w, payload.
    unfold readAsDataURL. rewrite Htype. repeat split; auto. }
  assert (Js.truthy (Some (readAsDataURL f payload)) = true) as Ht by reflexivity.
  cbn [run]. rewrite step_FileChange_image by assumption.
  unfold step at 1. cbn [ui readers calls]. rewrite nth_error_last.
  unfold step, generateDisabled, handleGenerate, readerSettles, onloadend.
  cbn [ui readers calls originalImage isLoading setError setGeneratedImage
       setOriginalImage].
  rewrite HL, Ht, Hdec. cbn [negb orb].
  eexists. split; [reflexivity|]. repeat split.
Qed.

Lemma upload_then_generate_witness :
  exists c',
    run start [FileChange (Some Scenario.pngFile);
               ReaderSettles (length (readers start)) (ReadOk Scenario.pngPayload);
               GenerateClick] = Some c'
    /\ calls c'
       = (calls start
          ++ [({| mimeType := type Scenario.pngFile;
                  base64 := Scenario.pngPayload |}, prompt (ui start))])%list
    /\ isLoading (ui c') = true
    /\ error (ui c') = None
    /\ generatedImage (ui c') = None
    /\ Genai.parts
         (Genai.contents
            (GeminiService.request
               {| mimeType := type Scenario.pngFile;
                  base64 := Scenario.pngPayload |} (prompt (ui start))))
       = [{| Genai.inlineData :=
               Some {| Genai.data := Scenario.pngPayload;
                       Genai.mimeType := type Scenario.pngFile |};
             Genai.text := None |};
          GeminiService.textPart (prompt (ui start))].
Proof.
  apply (upload_then_generate start Scenario.pngFile "png" Scenario.pngPayload).
  - reflexivity.
  - discriminate.
  - reflexivity.
  - reflexivity.
  - reflexivity.
Defined.

(** ** A read that fails *)

(** X3: when a pending read fails, [onerror] and then [onloadend] run, and
    the state they leave has no source image, no generated image and no
    error message: the message of [onerror] does not survive, no alert is
    shown, and the generate button is disabled. *)
Theorem failed_read_clears_state
    (c : System) (k : nat) (f : File)
    (Hk : nth_error (readers c) k = Some f) :
  exists c',
    step c (ReaderSettles k ReadFailed) = Some c'
    /\ originalImage (ui c') = None
    /\ generatedImage (ui c') = None
    /\ error (ui c') = None
    /\ errorBanner (ui c') = None
    /\ generateDisabled (ui c') = true
    /\ isLoading (ui c') = isLoading (ui c)
    /\ prompt (ui c') = prompt (ui c).
Proof.
  unfold step. rewrite Hk. eexists. split; [reflexivity|].
  unfold generateDisabled. cbn. rewrite orb_true_r. repeat split.
Qed.

Lemma failed_read_clears_state_witness :
  exists c',
    step (Scenario.exec [FileChange (Some Scenario.pngFile)])
      (ReaderSettles 0 ReadFailed) = Some c'
    /\ originalImage (ui c') = None
    /\ generatedImage (ui c') = None
    /\ error (ui c') = None
    /\ errorBanner (ui c') = None
    /\ generateDisabled (ui c') = true
    /\ isLoading (ui c')
       = isLoading (ui (Scenario.exec [FileChange (Some Scenario.pngFile)]))
    /\ prompt (ui c')
       = prompt (ui (Scenario.exec [FileChange (Some Scenario.pngFile)])).
Proof.
  apply (failed_read_clears_state
           (Scenario.exec [FileChange (Some Scenario.pngFile)]) 0
           Scenario.pngFile).
  reflexivity.
Defined.

(** ** A click on the generate button *)

(** X4: the handler answers a missing or empty source image with "Please
    upload an image first." and no call, but the button is disabled in
    exactly these states; so a click that happens finds a source image and
    the loading flag false, and either starts one call with the decoded
    image and the current prompt, clearing error and result, or only sets
    "Invalid image data format.". *)
Theorem generate_click_outcomes
    (c c' : System) (Hstep : step c GenerateClick = Some c') :
  (forall s : AppState,
      Js.truthy (originalImage s) = false ->
      handleGenerate s
      = (setError (Some "Please upload an image first.") s, None)
      /\ generateDisabled s = true)
  /\ exists u,
       originalImage (ui c) = Some u
       /\ u <> EmptyString
       /\ isLoading (ui c) = false
       /\ readers c' = readers c
       /\ error (ui c') <> Some "Please upload an image first."
       /\ match dataURLToImageData u with
          | Some imageData =>
              ui c' = setGeneratedImage None
                        (setError None (setIsLoading true (ui c)))
              /\ calls c' = (calls c ++ [(imageData, prompt (ui c))])%list
          | None =>
              ui c' = setError (Some "Invalid image data format.") (ui c)
              /\ calls c' = calls c
          end.
Proof.
  split.
  - intros s Hs. unfold handleGenerate, generateDisabled. rewrite Hs.
    rewrite orb_true_r. split; [|reflexivity].
    destruct (originalImage s) as [u|]; [|reflexivity]. now rewrite Hs.
  - unfold step, generateDisabled in Hstep.
    destruct (isLoading (ui c)) eqn:HL; [discriminate|].
    destruct (originalImage (ui c)) as [u|] eqn:HO; [|discriminate].
    destruct (Js.truthy (Some u)) eqn:Ht; [|discriminate].
    cbn [orb negb] in Hstep. unfold handleGenerate in Hstep.
    rewrite HO, Ht in Hstep. cbn [negb] in Hstep.
    exists u. split; [reflexivity|]. split.
    { intros ->. discriminate Ht. }
    split; [reflexivity|].
    destruct (dataURLToImageData u) as [img|];
      injection Hstep as <-; cbn [ui readers calls]; rewrite ?app_nil_r;
      repeat split; discriminate.
Qed.

Lemma generate_click_outcomes_witness :
  (forall s : AppState,
      Js.truthy (originalImage s) = false ->
      handleGenerate s
      = (setError (Some "Please upload an image first.") s, None)
      /\ generateDisabled s = true)
  /\ exists u,
       originalImage (ui (Scenario.exec Scenario.uploadSvg)) = Some u
       /\ u <> EmptyString
       /\ isLoading (ui (Scenario.exec Scenario.uploadSvg)) = false
       /\ readers
            {| ui := setError (Some "Invalid image data format.")
                       (ui (Scenario.exec Scenario.uploadSvg));
               readers := []; calls := [] |}
          = readers (Scenario.exec Scenario.uploadSvg)
       /\ error
            (ui {| ui := setError (Some "Invalid image data format.")
                           (ui (Scenario.exec Scenario.uploadSvg));
                   readers := []; calls := [] |})
          <> Some "Please upload an image first."
       /\ match dataURLToImageData u with
          | Some imageData =>
              ui {| ui := setError (Some "Invalid image data format.")
                            (ui (Scenario.exec Scenario.uploadSvg));
                    readers := []; calls := [] |}
              = setGeneratedImage None
                  (setError None
                     (setIsLoading true (ui (Scenario.exec Scenario.uploadSvg))))
              /\ calls
                   {| ui := setError (Some "Invalid image data format.")
                              (ui (Scenario.exec Scenario.uploadSvg));
                      readers := []; calls := [] |}
                 = (calls (Scenario.exec Scenario.uploadSvg)
                    ++ [(imageData,
                         prompt (ui (Scenario.exec Scenario.uploadSvg)))])%list
          | None =>
              ui {| ui := setError (Some "Invalid image data format.")
                            (ui (Scenario.exec Scenario.uploadSvg));
                    readers := []; calls := [] |}
              = setError (Some "Invalid image data format.")
                  (ui (Scenario.exec Scenario.uploadSvg))
              /\ calls
                   {| ui := setError (Some "Invalid image data format.")
                              (ui (Scenario.exec Scenario.uploadSvg));
                      readers := []; calls := [] |}
                 = calls (Scenario.exec Scenario.uploadSvg)
          end.
Proof.
  apply (generate_click_outcomes
           (Scenario.exec Scenario.uploadSvg)
           {| ui := setError (Some "Invalid image data format.")
                      (ui (Scenario.exec Scenario.uploadSvg));
              readers := []; calls := [] |}).
  reflexivity.
Defined.

(** ** What the state cells hold in every reachable state *)

(** X5: in every reachable state a stored generated image is
    "data:image/png;base64," followed by some data; the result column then
    shows it, the loading flag is false, and the download handler links to
    exactly this string under the name cartoon-headshot.png.  Without a
    stored generated image the column shows no image and the download
    handler does nothing. *)
Theorem generated_image_shape (c : System) (Hc : reachable c) :
  match generatedImage (ui c) with
  | Some g =>
      (exists d, g = "data:image/png;base64," ++ d)
      /\ isLoading (ui c) = false
      /\ resultColumn (ui c) = GeneratedImg g
      /\ downloadImage (ui c) = Some (g, "cartoon-headshot.png")
  | None =>
      downloadImage (ui c) = None
      /\ resultColumn (ui c)
         = if isLoading (ui c) then LoadingSpinner else Placeholder
  end.
Proof.
  destruct (reachable_consistent c Hc) as [Hres _ _ _ _].
  pose proof (Shape.generated_shape c (reachable_wellShaped c Hc)) as Hshape.
  unfold resultColumn, downloadImage.
  destruct (generatedImage (ui c)) as [g|].
  - destruct (Hshape g eq_refl) as [d ->].
    destruct (isLoading (ui c)); [discriminate (Hres eq_refl)|].
    split; [eauto|]. repeat split.
  - split; reflexivity.
Qed.

Lemma generated_image_shape_witness :
  match generatedImage (ui (Scenario.exec Scenario.generationSucceeds)) with
  | Some g =>
      (exists d, g = "data:image/png;base64," ++ d)
      /\ isLoading (ui (Scenario.exec Scenario.generationSucceeds)) = false
      /\ resultColumn (ui (Scenario.exec Scenario.generationSucceeds))
         = GeneratedImg g
      /\ downloadImage (ui (Scenario.exec Scenario.generationSucceeds))
         = Some (g, "cartoon-headshot.png")
  | None =>
      downloadImage (ui (Scenario.exec Scenario.generationSucceeds)) = None
      /\ resultColumn (ui (Scenario.exec Scenario.generationSucceeds))
         = if isLoading (ui (Scenario.exec Scenario.generationSucceeds))
           then LoadingSpinner else Placeholder
  end.
Proof.
  apply (generated_image_shape (Scenario.exec Scenario.generationSucceeds)).
  apply exec_reachable.
Defined.

(** X6: no file that fails the check of [handleFileChange] is ever read or
    stored.  In every reachable state each read in progress is of a file
    whose declared type starts with "image/", and an event changes the
    source image only as the end of one of these reads. *)
Theorem reads_only_declared_images (c : System) (Hc : reachable c) :
  Forall (fun f => Js.startsWith (type f) "image/" = true) (readers c)
  /\ forall e c',
       step c e = Some c' ->
       originalImage (ui c') <> originalImage (ui c) ->
       exists k r f,
         e = ReaderSettles k r
         /\ nth_error (readers c) k = Some f
         /\ Js.startsWith (type f) "image/" = true.
Proof.
  pose proof (Shape.readers_declared c (reachable_wellShaped c Hc)) as Hr.
  split; [exact Hr|].
  intros e c' Hstep Hne.
  destruct e as [file|k r| v | |k sdk| ]; simpl in Hstep.
  - exfalso. apply Hne. unfold handleFileChange in Hstep.
    destruct file as [f|]; [destruct (negb _)|]; now injection Hstep as <-.
  - destruct (nth_error (readers c) k) as [f|] eqn:Hk; [|discriminate].
    exists k, r, f. split; [reflexivity|]. split; [exact Hk|].
    rewrite Forall_forall in Hr. eapply Hr, nth_error_In, Hk.
  - exfalso. apply Hne.
    destruct (promptDisabled (ui c)); [discriminate|].
    now injection Hstep as <-.
  - exfalso. apply Hne.
    destruct (generateDisabled (ui c)); [discriminate|].
    unfold handleGenerate in Hstep.
    destruct (originalImage (ui c)) as [u|] eqn:HO;
      [destruct (negb (Js.truthy (Some u)));
       [|destruct (dataURLToImageData u)]|];
      injection Hstep as <-; simpl; now rewrite ?HO.
  - exfalso. apply Hne.
    destruct (nth_error (calls c) k) as [[img p]|]; [|discriminate].
    injection Hstep as <-. cbn [ui]. now autorewrite with settled.
  - exfalso. apply Hne.
    destruct (resultColumn (ui c)); try discriminate.
    now injection Hstep as <-.
Qed.

Lemma reads_only_declared_images_witness :
  Forall (fun f => Js.startsWith (type f) "image/" = true)
    (readers (Scenario.exec [FileChange (Some Scenario.pngFile)]))
  /\ forall e c',
       step (Scenario.exec [FileChange (Some Scenario.pngFile)]) e = Some c' ->
       originalImage (ui c')
       <> originalImage (ui (Scenario.exec [FileChange (Some Scenario.pngFile)])) ->
       exists k r f,
         e = ReaderSettles k r
         /\ nth_error
              (readers (Scenario.exec [FileChange (Some Scenario.pngFile)])) k
            = Some f
         /\ Js.startsWith (type f) "image/" = true.
Proof.
  apply (reads_only_declared_images
           (Scenario.exec [FileChange (Some Scenario.pngFile)])).
  apply exec_reachable.
Defined.

(** X7: in every reachable state at most one call of the client is
    pending; the loading flag is set exactly while one is; the prompt the
    pending call was made with is the prompt the state holds; and while the
    flag is set neither a click on the generate button nor an edit of the
    prompt can happen. *)
Theorem one_call_at_a_time (c : System) (Hc : reachable c) :
  length (calls c) <= 1
  /\ (isLoading (ui c) = true <-> calls c <> [])
  /\ (forall imageData p, In (imageData, p) (calls c) -> p = prompt (ui c))
  /\ (isLoading (ui c) = true ->
      step c GenerateClick = None
      /\ forall v, step c (PromptChange v) = None).
Proof.
  destruct (reachable_consistent c Hc) as [_ Hcall _ _ _].
  pose proof (Shape.calls_prompt c (reachable_wellShaped c Hc)) as Hp.
  split; [|split; [|split]].
  - destruct (isLoading (ui c)); [destruct Hcall as [a ->] | rewrite Hcall];
      simpl; lia.
  - destruct (isLoading (ui c)).
    + destruct Hcall as [a ->]. split; [discriminate | reflexivity].
    + rewrite Hcall. split; [discriminate | congruence].
  - intros img p Hin. rewrite Forall_forall in Hp. exact (Hp _ Hin).
  - intros HL. unfold step, generateDisabled, promptDisabled. now rewrite HL.
Qed.

Lemma one_call_at_a_time_witness :
  length (calls (Scenario.exec Scenario.startGeneration)) <= 1
  /\ (isLoading (ui (Scenario.exec Scenario.startGeneration)) = true
      <-> calls (Scenario.exec Scenario.startGeneration) <> [])
  /\ (forall imageData p,
        In (imageData, p) (calls (Scenario.exec Scenario.startGeneration)) ->
        p = prompt (ui (Scenario.exec Scenario.startGeneration)))
  /\ (isLoading (ui (Scenario.exec Scenario.startGeneration)) = true ->
      step (Scenario.exec Scenario.startGeneration) GenerateClick = None
      /\ forall v,
           step (Scenario.exec Scenario.startGeneration) (PromptChange v) = None).
Proof.
  apply (one_call_at_a_time (Scenario.exec Scenario.startGeneration)).
  apply exec_reachable.
Defined.

(** X8: no handler stores an empty error message, so in every reachable
    state the alert shows exactly what the error cell holds: it is absent
    only when the cell is null. *)
Theorem error_banner_shows_error (c : System) (Hc : reachable c) :
  errorBanner (ui c) = error (ui c)
  /\ error (ui c) <> Some EmptyString
  /\ (errorBanner (ui c) = None <-> error (ui c) = None).
Proof.
  destruct (reachable_consistent c Hc) as [_ _ _ _ He].
  assert (errorBanner (ui c) = error (ui c)) as Hb.
  { unfold errorBanner. destruct (error (ui c)) as [m|]; [|reflexivity].
    destruct m; [congruence | reflexivity]. }
  split; [exact Hb|]. split; [exact He|]. now rewrite Hb.
Qed.

Lemma error_banner_shows_error_witness :
  errorBanner (ui (Scenario.exec Scenario.generationRateLimited))
  = error (ui (Scenario.exec Scenario.generationRateLimited))
  /\ error (ui (Scenario.exec Scenario.generationRateLimited))
     <> Some EmptyString
  /\ (errorBanner (ui (Scenario.exec Scenario.generationRateLimited)) = None
      <-> error (ui (Scenario.exec Scenario.generationRateLimited)) = None).
Proof.
  apply (error_banner_shows_error (Scenario.exec Scenario.generationRateLimited)).
  apply exec_reachable.
Defined.

(** ** Every outcome of the client *)



(** X10: the client is constructed before the [try]; an [Error] thrown by
    the construction leaves the client as it is, without the prefix of the
    [catch] block, and no request is sent.  When the pending call settles
    so, the controller shows the message of that error, or its fallback
    "An unexpected error occurred." when the message is empty, clears the
    loading flag and keeps the generated image cell. *)
Theorem constructor_error_unwrapped
    (sdk : Genai.Sdk) (baseImage : ImageData) (p m : string)
    (Hctor : Genai.construct sdk = Some (Js.ThrownError m)) :
  GeminiService.generateCartoonImage sdk baseImage p
  = ([], Js.RejectedWith (Js.ThrownError m))
  /\ forall c k c',
       nth_error (calls c) k = Some (baseImage, p) ->
       step c (GenerationSettles k sdk) = Some c' ->
       error (ui c')
       = Some (if (m =? EmptyString)%string
               then "An unexpected error occurred." else m)
       /\ isLoading (ui c') = false
       /\ generatedImage (ui c') = generatedImage (ui c).
Proof.
  assert (GeminiService.generateCartoonImage sdk baseImage p
          = ([], Js.RejectedWith (Js.ThrownError m))) as Hgen.
  { unfold GeminiService.generateCartoonImage. now rewrite Hctor. }
  split; [exact Hgen|].
  intros c k c' Hk Hstep.
  apply step_GenerationSettles in Hstep as (img & q & Hk' & ->).
  rewrite Hk in Hk'. injection Hk' as <- <-.
  cbn [ui]. autorewrite with settled. rewrite Hgen. cbn [snd catchMessage].
  repeat split.
Qed.

Lemma constructor_error_unwrapped_witness :
  GeminiService.generateCartoonImage
    {| Genai.construct :=
         Some (Js.ThrownError "An API Key must be set when running in a browser");
       Genai.generateContent := fun _ => Js.RejectedWith Js.ThrownNullish |}
    {| mimeType := "image/png"; base64 := Scenario.pngPayload |} "pixar style"
  = ([], Js.RejectedWith
           (Js.ThrownError "An API Key must be set when running in a browser"))
  /\ forall c k c',
       nth_error (calls c) k
       = Some ({| mimeType := "image/png"; base64 := Scenario.pngPayload |},
               "pixar style") ->
       step c
         (GenerationSettles k
            {| Genai.construct :=
                 Some (Js.ThrownError
                         "An API Key must be set when running in a browser");
               Genai.generateContent :=
                 fun _ => Js.RejectedWith Js.ThrownNullish |}) = Some c' ->
       error (ui c')
       = Some (if ("An API Key must be set when running in a browser"
                   =? EmptyString)%string
               then "An unexpected error occurred."
               else "An API Key must be set when running in a browser")
       /\ isLoading (ui c') = false
       /\ generatedImage (ui c') = generatedImage (ui c).
Proof.
  apply (constructor_error_unwrapped
           {| Genai.construct :=
                Some (Js.ThrownError
                        "An API Key must be set when running in a browser");
              Genai.generateContent :=
                fun _ => Js.RejectedWith Js.ThrownNullish |}
           {| mimeType := "image/png"; base64 := Scenario.pngPayload |}
           "pixar style"
           "An API Key must be set when running in a browser").
  reflexivity.
Defined.

(** ** Events that overlap *)

(** X11: a pending call is not cancelled by a new upload.  When a file is
    picked and read while a call is pending and the call then resolves, the
    state holds the data URL of the new file as the source image and, next
    to it, the result generated for the image the call was made with. *)
Theorem pending_call_survives_upload
    (c : System) (baseImage : ImageData) (p : string)
    (f : File) (payload : string) (sdk : Genai.Sdk) (d : string)
    (Hcall : nth_error (calls c) 0 = Some (baseImage, p))
    (Hf : Js.startsWith (type f) "image/" = true)
    (Hres : snd (GeminiService.generateCartoonImage sdk baseImage p)
            = Js.Fulfilled d) :
  exists c',
    run c [FileChange (Some f);
           ReaderSettles (length (readers c)) (ReadOk payload);
           GenerationSettles 0 sdk] = Some c'
    /\ originalImage (ui c') = Some (readAsDataURL f payload)
    /\ generatedImage (ui c') = Some ("data:image/png;base64," ++ d)
    /\ resultColumn (ui c') = GeneratedImg ("data:image/png;base64," ++ d)
    /\ isLoading (ui c') = false.
Proof.
  cbn [run]. rewrite step_FileChange_image by assumption.
  unfold step at 1. cbn [ui readers calls]. rewrite nth_error_last.
  unfold step. cbn [ui readers calls]. rewrite Hcall, Hres.
  eexists. split; [reflexivity|]. repeat split.
Qed.

Lemma pending_call_survives_upload_witness :
  exists c',
    run (Scenario.exec Scenario.startGeneration)
      [FileChange (Some Scenario.svgFile);
       ReaderSettles (length (readers (Scenario.exec Scenario.startGeneration)))
         (ReadOk "PHN2Zy8+");
       GenerationSettles 0 (Scenario.serviceReturning [Scenario.inlinePart "QUJD"])]
    = Some c'
    /\ originalImage (ui c') = Some (readAsDataURL Scenario.svgFile "PHN2Zy8+")
    /\ generatedImage (ui c') = Some ("data:image/png;base64," ++ "QUJD")
    /\ resultColumn (ui c') = GeneratedImg ("data:image/png;base64," ++ "QUJD")
    /\ isLoading (ui c') = false.
Proof.
  apply (pending_call_survives_upload
           (Scenario.exec Scenario.startGeneration)
           {| mimeType := "image/png"; base64 := Scenario.pngPayload |}
           "pixar style" Scenario.svgFile "PHN2Zy8+"
           (Scenario.serviceReturning [Scenario.inlinePart "QUJD"]) "QUJD").
  - reflexivity.
  - reflexivity.
  - reflexivity.
Defined.

(** X12: the source image is that of the read that finished last, not of
    the file picked last.  When two image files are picked one after the
    other and the read of the second finishes before the read of the
    first, the state ends with the data URL of the first file, and no
    reader of the two is left. *)
Theorem last_finished_read_wins
    (c : System) (f1 f2 : File) (payload1 payload2 : string)
    (H1 : Js.startsWith (type f1) "image/" = true)
    (H2 : Js.startsWith (type f2) "image/" = true) :
  exists c',
    run c [FileChange (Some f1);
           FileChange (Some f2);
           ReaderSettles (S (length (readers c))) (ReadOk payload2);
           ReaderSettles (length (readers c)) (ReadOk payload1)] = Some c'
    /\ originalImage (ui c') = Some (readAsDataURL f1 payload1)
    /\ readers c' = readers c
    /\ generatedImage (ui c') = None
    /\ error (ui c') = None.
Proof.
  cbn [run]. rewrite step_FileChange_image by assumption.
  rewrite step_FileChange_image by assumption. cbn [ui readers calls].
  replace (S (length (readers c))) with (length (readers c ++ [f1])%list)
    by (rewrite length_app; simpl; lia).
  unfold step at 1. cbn [ui readers calls].
  rewrite nth_error_last, remove_nth_last.
  unfold step. cbn [ui readers calls].
  rewrite nth_error_last, remove_nth_last.
  eexists. split; [reflexivity|]. repeat split.
Qed.

Lemma last_finished_read_wins_witness :
  exists c',
    run start [FileChange (Some Scenario.pngFile);
               FileChange (Some Scenario.svgFile);
               ReaderSettles (S (length (readers start))) (ReadOk "PHN2Zy8+");
               ReaderSettles (length (readers start)) (ReadOk Scenario.pngPayload)]
    = Some c'
    /\ originalImage (ui c')
       = Some (readAsDataURL Scenario.pngFile Scenario.pngPayload)
    /\ readers c' = readers start
    /\ generatedImage (ui c') = None
    /\ error (ui c') = None.
Proof.
  apply (last_finished_read_wins start Scenario.pngFile Scenario.svgFile
           Scenario.pngPayload "PHN2Zy8+").
  - reflexivity.
  - reflexivity.
Defined.

(** ** Which event writes which cell *)

(** X13: every state cell has its own writers.  Across one event the prompt
    changes only by an edit of the prompt box, the source image only by the
    end of a read, the loading flag and the pending calls only by a click
    on the generate button or by a call that settles, and the generated
    image only by one of these or the end of a read; a cancelled file
    dialog and a click on the download button change nothing. *)
Theorem cells_have_their_writers
    (c c' : System) (e : Event) (Hstep : step c e = Some c') :
  (prompt (ui c') <> prompt (ui c) -> exists v, e = PromptChange v)
  /\ (originalImage (ui c') <> originalImage (ui c) ->
      exists k r, e = ReaderSettles k r)
  /\ (isLoading (ui c') <> isLoading (ui c) ->
      e = GenerateClick \/ exists k sdk, e = GenerationSettles k sdk)
  /\ (calls c' <> calls c ->
      e = GenerateClick \/ exists k sdk, e = GenerationSettles k sdk)
  /\ (generatedImage (ui c') <> generatedImage (ui c) ->
      e = GenerateClick
      \/ (exists k r, e = ReaderSettles k r)
      \/ exists k sdk, e = GenerationSettles k sdk)
  /\ (e = FileChange None \/ e = DownloadClick -> c' = c).
Proof.
  destruct e as [file|k r| v | |k sdk| ]; simpl in Hstep.
  - unfold handleFileChange in Hstep.
    destruct file as [f|]; [destruct (negb _)|]; injection Hstep as <-;
      cbn [ui calls]; rewrite ?app_nil_r;
      (repeat split; intros H;
       [simpl in H; congruence .. | destruct H as [H|H]; try discriminate H]).
    now destruct c.
  - destruct (nth_error (readers c) k) as [f|]; [|discriminate].
    injection Hstep as <-.
    repeat split; intros H; eauto;
      try (destruct r; cbn in H; congruence);
      destruct H as [H|H]; discriminate H.
  - destruct (promptDisabled (ui c)); [discriminate|].
    injection Hstep as <-.
    repeat split; intros H; eauto; try (cbn in H; congruence);
      destruct H as [H|H]; discriminate H.
  - destruct (generateDisabled (ui c)); [discriminate|].
    unfold handleGenerate in Hstep.
    assert (prompt (ui c') = prompt (ui c)
            /\ originalImage (ui c') = originalImage (ui c)) as [Hp Ho].
    { destruct (originalImage (ui c)) as [u|] eqn:HO;
        [destruct (negb (Js.truthy (Some u)));
         [|destruct (dataURLToImageData u)]|];
        injection Hstep as <-; simpl; rewrite ?HO; auto. }
    repeat split; intros H; auto; try congruence;
      destruct H as [H|H]; discriminate H.
  - destruct (nth_error (calls c) k) as [[img p]|]; [|discriminate].
    injection Hstep as <-.
    repeat split; intros H; eauto;
      try (destruct H as [H|H]; discriminate H);
      exfalso; apply H; cbn [ui]; autorewrite with settled; reflexivity.
  - destruct (resultColumn (ui c)); try discriminate.
    injection Hstep as <-.
    repeat split; intros H; try reflexivity; exfalso; apply H; reflexivity.
Qed.

Lemma cells_have_their_writers_witness :
  (prompt
     (ui {| ui := setPrompt "pixar style" (ui (Scenario.exec Scenario.uploadPng));
            readers := readers (Scenario.exec Scenario.uploadPng);
            calls := calls (Scenario.exec Scenario.uploadPng) |})
   <> prompt (ui (Scenario.exec Scenario.uploadPng)) ->
   exists v, PromptChange "pixar style" = PromptChange v)
  /\ (originalImage
        (ui {| ui := setPrompt "pixar style" (ui (Scenario.exec Scenario.uploadPng));
               readers := readers (Scenario.exec Scenario.uploadPng);
               calls := calls (Scenario.exec Scenario.uploadPng) |})
      <> originalImage (ui (Scenario.exec Scenario.uploadPng)) ->
      exists k r, PromptChange "pixar style" = ReaderSettles k r)
  /\ (isLoading
        (ui {| ui := setPrompt "pixar style" (ui (Scenario.exec Scenario.uploadPng));
               readers := readers (Scenario.exec Scenario.uploadPng);
               calls := calls (Scenario.exec Scenario.uploadPng) |})
      <> isLoading (ui (Scenario.exec Scenario.uploadPng)) ->
      PromptChange "pixar style" = GenerateClick
      \/ exists k sdk, PromptChange "pixar style" = GenerationSettles k sdk)
  /\ (calls
        {| ui := setPrompt "pixar style" (ui (Scenario.exec Scenario.uploadPng));
           readers := readers (Scenario.exec Scenario.uploadPng);
           calls := calls (Scenario.exec Scenario.uploadPng) |}
      <> calls (Scenario.exec Scenario.uploadPng) ->
      PromptChange "pixar style" = GenerateClick
      \/ exists k sdk, PromptChange "pixar style" = GenerationSettles k sdk)
  /\ (generatedImage
        (ui {| ui := setPrompt "pixar style" (ui (Scenario.exec Scenario.uploadPng));
               readers := readers (Scenario.exec Scenario.uploadPng);
               calls := calls (Scenario.exec Scenario.uploadPng) |})
      <> generatedImage (ui (Scenario.exec Scenario.uploadPng)) ->
      PromptChange "pixar style" = GenerateClick
      \/ (exists k r, PromptChange "pixar style" = ReaderSettles k r)
      \/ exists k sdk, PromptChange "pixar style" = GenerationSettles k sdk)
  /\ (PromptChange "pixar style" = FileChange None
      \/ PromptChange "pixar style" = DownloadClick ->
      {| ui := setPrompt "pixar style" (ui (Scenario.exec Scenario.uploadPng));
         readers := readers (Scenario.exec Scenario.uploadPng);
         calls := calls (Scenario.exec Scenario.uploadPng) |}
      = Scenario.exec Scenario.uploadPng).
Proof.
  apply (cells_have_their_writers
           (Scenario.exec Scenario.uploadPng)
           {| ui := setPrompt "pixar style" (ui (Scenario.exec Scenario.uploadPng));
              readers := readers (Scenario.exec Scenario.uploadPng);
              calls := calls (Scenario.exec Scenario.uploadPng) |}
           (PromptChange "pixar style")).
  reflexivity.
Defined.
